(** * PageIndex OCR utilities: a shallow embedding of [pageindex/ocr_utils.py]

    The development follows the module top-down:
    - Python [str] operations the module relies on ([strip], [lower],
      [split], [in], [startswith], [join], [re.sub] with the two patterns
      that occur in the source, [str] of an integer);
    - the OCR input format (page and layout-item dictionaries) as records
      with optional fields, one per dictionary key the code reads;
    - the functions of the module, loop by loop;
    - the properties of each component.

    Texts are Python [str] values whose code points are below 256
    (Latin-1): one [ascii] stands for one code point.  On that range
    [str.isspace], the regular-expression class [\s], [str.strip] and
    [str.split] agree on one set of white-space characters, and
    [str.lower] acts character by character. *)

From Stdlib Require Import ZArith QArith Ascii String List Lia Bool.
From Stdlib Require Import DecimalString.
From stdpp Require Import base option list strings gmap.

Open Scope string_scope.
Open Scope Z_scope.
Open Scope list_scope.

(* ===================================================================== *)
(** ** Python string operations *)
(* ===================================================================== *)

Module Py.

(** [str.isspace] on one character: TAB..CR, FS..US, SPACE, NEL, NBSP. *)
Definition isspace (c : ascii) : bool :=
let n := N_of_ascii c in
((9 <=? n) && (n <=? 13) || (28 <=? n) && (n <=? 32)
 || (n =? 133) || (n =? 160))%N.

(** [str.lower] on one character: A..Z, and the Latin-1 capitals
  U+00C0..U+00DE without the multiplication sign U+00D7. *)
Definition lower_char (c : ascii) : ascii :=
let n := N_of_ascii c in
if ((65 <=? n) && (n <=? 90)
    || (192 <=? n) && (n <=? 222) && negb (n =? 215))%N
then ascii_of_N (n + 32) else c.

Fixpoint lower (s : string) : string :=
match s with
| EmptyString => EmptyString
| String c s' => String (lower_char c) (lower s')
end.

Fixpoint lstrip (s : string) : string :=
match s with
| EmptyString => EmptyString
| String c s' => if isspace c then lstrip s' else s
end.

Fixpoint rstrip (s : string) : string :=
match s with
| EmptyString => EmptyString
| String c s' =>
    match rstrip s' with
    | EmptyString => if isspace c then EmptyString else String c EmptyString
    | r => String c r
    end
end.

(** [s.strip()] *)
Definition strip (s : string) : string := rstrip (lstrip s).

(** Truth value of a [str]: non-empty. *)
Definition truthy (s : string) : bool :=
match s with EmptyString => false | _ => true end.

(** [s.startswith(p)] *)
Fixpoint startswith (s p : string) : bool :=
match p with
| EmptyString => true
| String b p' =>
    match s with
    | EmptyString => false
    | String a s' => if Ascii.eqb a b then startswith s' p' else false
    end
end.

(** [sub in s] for two strings. *)
Fixpoint contains (sub s : string) : bool :=
startswith s sub
|| match s with
   | EmptyString => false
   | String _ s' => contains sub s'
   end.

(** [s.split()]: the maximal runs of non-space characters, in order.
  [w] is the word being read. *)
Fixpoint split_from (w s : string) : list string :=
match s with
| EmptyString => if truthy w then [w] else []
| String c s' =>
    if isspace c
    then (if truthy w then w :: split_from EmptyString s'
          else split_from EmptyString s')
    else split_from (w +:+ String c EmptyString) s'
end.

Definition split (s : string) : list string := split_from EmptyString s.

(** [sep.join(l)] *)
Definition join (sep : string) (l : list string) : string :=
String.concat sep l.

(** [re.sub(r'\s+', ' ', s)]: every maximal white-space run becomes one
  space.  [in_run] tells that the previous character was white space. *)
Fixpoint collapse_from (in_run : bool) (s : string) : string :=
match s with
| EmptyString => EmptyString
| String c s' =>
    if isspace c
    then (if in_run then collapse_from true s'
          else String " " (collapse_from true s'))
    else String c (collapse_from false s')
end.

Definition sub_spaces (s : string) : string := collapse_from false s.

Fixpoint drop_hashes (s : string) : string :=
match s with
| String "#" s' => drop_hashes s'
| _ => s
end.

(** [re.sub(r'^#+\s*', '', s)]: the pattern is anchored at the start of
  the string, so at most one occurrence is replaced: a non-empty run of
  '#' followed by all the white space after it. *)
Definition sub_heading (s : string) : string :=
if startswith s "#" then lstrip (drop_hashes s) else s.

(** [str(n)] for an integer. *)
Definition str (n : Z) : string := NilZero.string_of_int (Z.to_int n).

(** [n > m * 0.5] for integers [n], [m]: the product is a float, exact for
  every [m] below 2^53, and Python compares an integer with a float by
  value. *)
Definition gt_half (n m : Z) : bool :=
negb (Qle_bool (inject_Z n) (inject_Z m * (1 # 2))).

(** Python's newline character. *)
Definition nl : string := String (ascii_of_nat 10) EmptyString.

End Py.


(** Exceptions the modelled code can raise, and results of fallible calls. *)
Inductive exn := IndexError.

Inductive result (A : Type) :=
  | Ok (a : A)
  | Raise (e : exn).
Arguments Ok {A} a.
Arguments Raise {A} e.

(** [l[index]] for a Python list and an integer index: a negative index
    counts from the end, anything outside [-len, len) raises. *)
Definition list_getitem {A} (l : list A) (index : Z) : result A :=
  let n := Z.of_nat (length l) in
  let i := if index <? 0 then index + n else index in
  if (i <? 0) || (n <=? i) then Raise IndexError
  else match l !! Z.to_nat i with
       | Some x => Ok x
       | None => Raise IndexError
       end.

(* ===================================================================== *)
(** ** The OCR input format and the derived records *)
(* ===================================================================== *)

(** A bounding box is the JSON array the OCR tool wrote: [x1, y1, x2, y2]. *)
Abbreviation Bbox := (list Z).

(** One entry of a page's ['full_layout_info']; each key may be missing. *)
Module LayoutItem.
Record t := mk {
  text : option string;
  bbox : option Bbox;
  category : option string
}.
End LayoutItem.

(** One OCR page dictionary. *)
Module Page.
Record t := mk {
  page_no : option Z;
  full_layout_info : option (list LayoutItem.t)
}.
End Page.

(** The dictionary [extract_section_headers_with_bbox] builds. *)
Module Header.
Record t := mk {
  page_no : Z;
  text : string;
  bbox : Bbox;
  category : string;
  physical_index : Z
}.
End Header.

(** The dictionary [detect_toc_from_headers] builds.  ['structure'] is
    always present and may hold [None]; ['parent_section'] may be missing. *)
Module TocItem.
Record t := mk {
  structure : option string;
  title : string;
  physical_index : Z;
  bbox : Bbox;
  page_no : Z;
  level : Z;
  parent_section : option Z
}.
End TocItem.

Module TocResult.
Record t := mk {
  toc_items : list TocItem.t;
  has_structure : bool
}.
End TocResult.

(* ===================================================================== *)
(** ** Page Text Extractor and token pages *)
(* ===================================================================== *)

(** Body of the loop of [extract_text_from_ocr_page]: [texts.append]. *)
Definition extract_text_step (texts : list string) (item : LayoutItem.t)
  : list string :=
  match LayoutItem.text item with
  | Some t => if Py.truthy (Py.strip t) then texts ++ [Py.strip t] else texts
  | None => texts
  end.

Definition extract_text_from_ocr_page (page_data : Page.t) : string :=
  let texts :=
    match Page.full_layout_info page_data with
    | Some items => fold_left extract_text_step items []
    | None => []
    end in
  Py.join Py.nl texts.

Section Tokens.
(** [tiktoken.encoding_for_model(model).encode]: the tokenizer is outside
    the module; only the length of what it returns is used. *)
Context {Token : Type}.
Variable encoding_for_model : string -> string -> list Token.

Definition get_page_tokens_from_ocr (ocr_results : list Page.t)
  (model : string) : list (string * Z) :=
  let enc := encoding_for_model model in
  fold_left
    (fun page_list page_data =>
       let page_text := extract_text_from_ocr_page page_data in
       let token_length := Z.of_nat (length (enc page_text)) in
       page_list ++ [(page_text, token_length)])
    ocr_results [].

(** The state of an [OCRPageListWrapper] object. *)
Record OCRPageListWrapper := mkWrapper {
  ocr_results : list Page.t;
  model : string;
  _page_list : list (string * Z)
}.

(** [OCRPageListWrapper.__init__] *)
Definition create_ocr_page_list_wrapper (ocr_results : list Page.t)
  (model : string) : OCRPageListWrapper :=
  mkWrapper ocr_results model (get_page_tokens_from_ocr ocr_results model).

(** [__len__] *)
Definition wrapper_len (self : OCRPageListWrapper) : Z :=
  Z.of_nat (length (_page_list self)).

(** [__getitem__] at an integer index. *)
Definition wrapper_getitem (self : OCRPageListWrapper) (index : Z)
  : result (string * Z) :=
  list_getitem (_page_list self) index.

(** [get_ocr_data] *)
Definition get_ocr_data (self : OCRPageListWrapper) (page_index : Z)
  : option Page.t :=
  if (0 <=? page_index) && (page_index <? Z.of_nat (length (ocr_results self)))
  then ocr_results self !! Z.to_nat page_index
  else None.
End Tokens.

(* ===================================================================== *)
(** ** Header Locator *)
(* ===================================================================== *)

Definition section_marker : string := "Section-header".

(** The condition of the inner [if] of [extract_section_headers_with_bbox],
    giving the fields the branch reads. *)
Definition header_fields (item : LayoutItem.t)
  : option (string * Bbox * string) :=
  match LayoutItem.category item, LayoutItem.text item, LayoutItem.bbox item with
  | Some c, Some t, Some b =>
      if Py.contains section_marker c then Some (t, b, c) else None
  | _, _, _ => None
  end.

Definition headers_item_step (page_no : Z) (headers : list Header.t)
  (item : LayoutItem.t) : list Header.t :=
  match header_fields item with
  | Some (t, b, c) =>
      headers ++ [Header.mk page_no (Py.strip t) b c (page_no + 1)]
  | None => headers
  end.

Definition headers_page_step (headers : list Header.t) (page_data : Page.t)
  : list Header.t :=
  let page_no := default 0 (Page.page_no page_data) in
  match Page.full_layout_info page_data with
  | Some items => fold_left (headers_item_step page_no) items headers
  | None => headers
  end.

Definition extract_section_headers_with_bbox (ocr_results : list Page.t)
  : list Header.t :=
  fold_left headers_page_step ocr_results [].

(* ===================================================================== *)
(** ** Hierarchy Inferencer *)
(* ===================================================================== *)

(** The [startswith] cascade that sets [level]. *)
Definition header_level (text : string) : Z :=
  if Py.startswith text "####" then 4
  else if Py.startswith text "###" then 3
  else if Py.startswith text "##" then 2
  else if Py.startswith text "#" then 1
  else 1.

(** [[h for h in toc_items if h.get('level', 1) == 1]] *)
Definition level1_items (toc_items : list TocItem.t) : list TocItem.t :=
  filter (λ h, TocItem.level h = 1) toc_items.

(** [len(l)] as a Python integer. *)
Definition len {A} (l : list A) : Z := Z.of_nat (length l).

(** Body of the loop of [detect_toc_from_headers]: the item appended for
    [header] when [toc_items] have been emitted. *)
Definition toc_item_of (toc_items : list TocItem.t) (header : Header.t)
  : TocItem.t :=
  let text := Header.text header in
  let cleaned_text := Py.strip (Py.sub_heading text) in
  let level := header_level text in
  let structure_parts :=
    if level =? 1 then [Py.str (len (level1_items toc_items) + 1)]
    else if level =? 2 then
      let parent_sections := level1_items toc_items in
      let current_l2_count :=
        len (filter (λ h, TocItem.level h = 2
                          ∧ TocItem.parent_section h = Some (len parent_sections))
               toc_items) in
      [Py.str (len parent_sections); Py.str (current_l2_count + 1)]
    else [] in
  let structure :=
    match structure_parts with
    | [] => None
    | _ => Some (Py.join "." structure_parts)
    end in
  TocItem.mk structure cleaned_text (Header.physical_index header)
    (Header.bbox header) (Header.page_no header) level
    (if (level =? 2) && (0 <? len (level1_items toc_items))
     then Some (len (level1_items toc_items)) else None).

Definition detect_step (toc_items : list TocItem.t) (header : Header.t)
  : list TocItem.t :=
  toc_items ++ [toc_item_of toc_items header].

Definition detect_toc_from_headers (headers : list Header.t) : TocResult.t :=
  let toc_items := fold_left detect_step headers [] in
  TocResult.mk toc_items (0 <? len toc_items).

(* ===================================================================== *)
(** ** Fuzzy Anchor Matcher *)
(* ===================================================================== *)

(** [re.sub(r'\s+', ' ', s.lower().strip())] *)
Definition clean (s : string) : string :=
  Py.sub_spaces (Py.strip (Py.lower s)).

(** [set(s.split())] *)
Definition word_set (s : string) : gset string := list_to_set (Py.split s).

(** The third disjunct of the fuzzy test, on the two cleaned texts. *)
Definition word_overlap (search_text_clean item_text_clean : string) : bool :=
  Py.gt_half
    (Z.of_nat (size (word_set search_text_clean ∩ word_set item_text_clean)))
    (Z.min (len (Py.split search_text_clean)) (len (Py.split item_text_clean))).

(** The test guarding [return item['bbox']], in either mode. *)
Definition text_matches (fuzzy_match : bool)
  (search_text_clean item_text_clean : string) : bool :=
  if fuzzy_match
  then Py.contains search_text_clean item_text_clean
       || Py.contains item_text_clean search_text_clean
       || word_overlap search_text_clean item_text_clean
  else String.eqb search_text_clean item_text_clean.

(** The [for] loop of [find_text_bbox_in_page], left at the first hit. *)
Fixpoint scan_items (fuzzy_match : bool) (search_text_clean : string)
  (items : list LayoutItem.t) : option Bbox :=
  match items with
  | [] => None
  | item :: rest =>
      match LayoutItem.text item, LayoutItem.bbox item with
      | Some t, Some b =>
          if text_matches fuzzy_match search_text_clean (clean t)
          then Some b
          else scan_items fuzzy_match search_text_clean rest
      | _, _ => scan_items fuzzy_match search_text_clean rest
      end
  end.

Definition find_text_bbox_in_page (page_data : Page.t) (search_text : string)
  (fuzzy_match : bool) : option Bbox :=
  match Page.full_layout_info page_data with
  | None => None
  | Some items => scan_items fuzzy_match (clean search_text) items
  end.

(* ===================================================================== *)
(** ** TOC Anchoring Service *)
(* ===================================================================== *)

(** A TOC entry dictionary as [enhance_toc_with_bbox] sees it: the four
    keys it reads or writes, each possibly missing, and the remaining keys
    ([rest]), which it only copies. *)
Module TocEntry.
Record t {A : Type} := mk {
  physical_index : option Z;
  title : option string;
  bbox : option Bbox;
  page_no : option Z;
  rest : A
}.
Arguments t A : clear implicits.
Arguments mk {A} _ _ _ _ _.

(** [d['bbox'] = b] and [d['page_no'] = n] *)
Definition set_bbox {A} (b : Bbox) (d : t A) : t A :=
  mk (physical_index d) (title d) (Some b) (page_no d) (rest d).
Definition set_page_no {A} (n : Z) (d : t A) : t A :=
  mk (physical_index d) (title d) (bbox d) (Some n) (rest d).
End TocEntry.

(** The function receives references: the entries are mutable dictionaries
    and the two lists mutable list objects.  The store maps a location to
    the object it holds; a new object takes the next free location. *)
Abbreviation loc := nat.

Section Store.
Context {A : Type}.

Inductive obj :=
  | ODict (d : TocEntry.t A)
  | OList (items : list loc).

Local Abbreviation store := (list obj).

(** Store-passing computations.  [WrongObject] stands for a location
    that does not hold an object of the kind the statement needs, which
    no state of a running program contains. *)
Inductive run (X : Type) :=
  | Done (x : X) (s : store)
  | WrongObject.
Arguments Done {X} x s.
Arguments WrongObject {X}.

Definition M (X : Type) := store → run X.

Definition ret {X} (x : X) : M X := λ s, Done x s.
Definition bind {X Y} (m : M X) (k : X → M Y) : M Y :=
  λ s, match m s with
       | Done x s' => k x s'
       | WrongObject => WrongObject
       end.

Notation "x <~ m ;; k" := (bind m (λ x, k))
  (at level 100, m at next level, right associativity).
Notation "m ;;; k" := (bind m (λ _, k))
  (at level 100, right associativity).

Definition alloc (o : obj) : M loc := λ s, Done (length s) (s ++ [o]).

Definition get_dict (l : loc) : M (TocEntry.t A) :=
  λ s, match s !! l with
       | Some (ODict d) => Done d s
       | _ => WrongObject
       end.

Definition get_list (l : loc) : M (list loc) :=
  λ s, match s !! l with
       | Some (OList items) => Done items s
       | _ => WrongObject
       end.

(** In-place update of the dictionary at [l]. *)
Definition update_dict (l : loc) (f : TocEntry.t A → TocEntry.t A) : M unit :=
  λ s, match s !! l with
       | Some (ODict d) => Done tt (<[l := ODict (f d)]> s)
       | _ => WrongObject
       end.

(** [l.append(x)] *)
Definition list_append (l : loc) (x : loc) : M unit :=
  λ s, match s !! l with
       | Some (OList items) => Done tt (<[l := OList (items ++ [x])]> s)
       | _ => WrongObject
       end.

(** What the body of the loop does to the copy [enhanced_item] of the
    entry [item].  [if bbox:] holds for a result that is neither [None]
    nor an empty list. *)
Definition anchor_entry (ocr_results : list Page.t) (item : TocEntry.t A)
  (enhanced_item : loc) : M unit :=
  match TocEntry.physical_index item, TocEntry.title item with
  | Some physical_index, Some title =>
      let page_index := physical_index - 1 in
      if (0 <=? page_index) && (page_index <? len ocr_results) then
        match ocr_results !! Z.to_nat page_index with
        | Some page_data =>
            match find_text_bbox_in_page page_data title true with
            | Some (x :: xs) =>
                update_dict enhanced_item (TocEntry.set_bbox (x :: xs)) ;;;
                update_dict enhanced_item
                  (TocEntry.set_page_no
                     (default page_index (Page.page_no page_data)))
            | _ => ret tt
            end
        | None => ret tt
        end
      else ret tt
  | _, _ => ret tt
  end.

(** One iteration: copy the entry, anchor the copy, append it. *)
Definition enhance_body (ocr_results : list Page.t) (enhanced_items : loc)
  (item : loc) : M unit :=
  d <~ get_dict item ;;
  enhanced_item <~ alloc (ODict d) ;;
  anchor_entry ocr_results d enhanced_item ;;;
  list_append enhanced_items enhanced_item.

Fixpoint enhance_loop (ocr_results : list Page.t) (enhanced_items : loc)
  (items : list loc) : M unit :=
  match items with
  | [] => ret tt
  | item :: rest =>
      enhance_body ocr_results enhanced_items item ;;;
      enhance_loop ocr_results enhanced_items rest
  end.

(** [toc_items] is read once: the loop appends to [enhanced_items] only,
    a list allocated by this call, so the list iterated on never changes
    while it is iterated. *)
Definition enhance_toc_with_bbox (toc_items : loc) (ocr_results : list Page.t)
  : M loc :=
  enhanced_items <~ alloc (OList []) ;;
  items <~ get_list toc_items ;;
  enhance_loop ocr_results enhanced_items items ;;;
  ret enhanced_items.
End Store.

Arguments obj A : clear implicits.
Abbreviation store A := (list (obj A)).
Arguments Done {A X} x s.
Arguments WrongObject {A X}.

(* ===================================================================== *)
(** ** Reference descriptions used in the statements *)
(* ===================================================================== *)

(** The layout items of a page, none when the key is missing. *)
Definition page_items (page_data : Page.t) : list LayoutItem.t :=
  default [] (Page.full_layout_info page_data).

(** The trimmed text fields of the items, in item order, without the
    empty ones. *)
Definition trimmed_texts (items : list LayoutItem.t) : list string :=
  filter (λ s, s ≠ "") (Py.strip <$> omap LayoutItem.text items).

(** An item the Header Locator selects: its category contains the marker
    and it has a text and a bounding box. *)
Definition is_section_header (item : LayoutItem.t) : Prop :=
  (∃ c, LayoutItem.category item = Some c ∧ Py.contains section_marker c = true)
  ∧ is_Some (LayoutItem.text item) ∧ is_Some (LayoutItem.bbox item).

#[global] Instance is_section_header_dec item : Decision (is_section_header item).
Proof.
  unfold is_section_header.
  destruct (LayoutItem.category item) as [c|].
  - destruct (Py.contains section_marker c) eqn:E.
    + destruct (decide (is_Some (LayoutItem.text item)
                        ∧ is_Some (LayoutItem.bbox item))) as [H|H].
      * left. split; [exists c; done | done].
      * right. intros [_ H']. done.
    + right. intros [(c' & [= <-] & H') _]. congruence.
  - right. intros [(c' & [=] & _) _].
Defined.

(** The Header Record of a selected item of [page_data]. *)
Definition header_record (page_data : Page.t) (item : LayoutItem.t) : Header.t :=
  let page_no := default 0 (Page.page_no page_data) in
  Header.mk page_no
    (Py.strip (default "" (LayoutItem.text item)))
    (default [] (LayoutItem.bbox item))
    (default "" (LayoutItem.category item))
    (page_no + 1).

(** An item that ends the scan of [find_text_bbox_in_page]: it has a text
    and a bounding box, and its cleaned text passes the test of the mode. *)
Definition is_hit (fuzzy_match : bool) (search_text : string)
  (item : LayoutItem.t) : Prop :=
  ∃ t b, LayoutItem.text item = Some t ∧ LayoutItem.bbox item = Some b
         ∧ text_matches fuzzy_match (clean search_text) (clean t) = true.

(** The word-overlap rule as the specification words it: both sizes under
    the minimum are sizes of the word sets. *)
Definition word_overlap_of_sets (search_text_clean item_text_clean : string)
  : Prop :=
  Z.min (Z.of_nat (size (word_set search_text_clean)))
        (Z.of_nat (size (word_set item_text_clean)))
  < 2 * Z.of_nat (size (word_set search_text_clean ∩ word_set item_text_clean)).

(** The page a 1-based physical index designates, if any. *)
Definition page_at (ocr_results : list Page.t) (physical_index : Z)
  : option Page.t :=
  if 0 <=? physical_index - 1
  then ocr_results !! Z.to_nat (physical_index - 1) else None.

(** Every bounding box of the page is a four-number array, as the input
    format has it. *)
Definition page_wf (page_data : Page.t) : Prop :=
  Forall (λ item, match LayoutItem.bbox item with
                  | Some b => length b = 4%nat
                  | None => True
                  end)
    (page_items page_data).

(** The entry the Anchoring Service returns for the entry [item]. *)
Definition enhanced_entry {A} (ocr_results : list Page.t) (item : TocEntry.t A)
  : TocEntry.t A :=
  match TocEntry.physical_index item, TocEntry.title item with
  | Some physical_index, Some title =>
      match page_at ocr_results physical_index with
      | Some page_data =>
          match find_text_bbox_in_page page_data title true with
          | Some (x :: xs) =>
              TocEntry.mk (Some physical_index) (Some title) (Some (x :: xs))
                (Some (default (physical_index - 1) (Page.page_no page_data)))
                (TocEntry.rest item)
          | _ => item
          end
      | None => item
      end
  | _, _ => item
  end.

(** The pair the Paged Token View holds for a page. *)
Definition page_pair {Token} (encoding_for_model : string → string → list Token)
  (model : string) (page_data : Page.t) : string * Z :=
  (extract_text_from_ocr_page page_data,
   Z.of_nat (length (encoding_for_model model
                       (extract_text_from_ocr_page page_data)))).

(** A TOC item emitted while no level-1 item exists. *)
Definition orphan (item : TocItem.t) : Prop :=
  TocItem.level item ≠ 1 ∧ TocItem.parent_section item = None.

(** What the Anchoring Service promises about the entry [d'] returned for
    the entry [d]: unchanged when the physical index designates no page or
    the title finds no match on its page (or when a key is missing);
    otherwise the matched bbox and the page number of the matched page,
    the 0-based offset when the page has none. *)
Definition entry_outcome {A} (ocr_results : list Page.t) (d d' : TocEntry.t A)
  : Prop :=
  (∀ physical_index title,
     TocEntry.physical_index d = Some physical_index →
     TocEntry.title d = Some title →
     match page_at ocr_results physical_index with
     | None => d' = d
     | Some page_data =>
         match find_text_bbox_in_page page_data title true with
         | None => d' = d
         | Some b =>
             d' = TocEntry.mk (Some physical_index) (Some title) (Some b)
                    (Some (default (physical_index - 1) (Page.page_no page_data)))
                    (TocEntry.rest d)
         end
     end)
  ∧ (TocEntry.physical_index d = None ∨ TocEntry.title d = None → d' = d).

(* ===================================================================== *)
(** ** Page ranges and the remaining methods of the view *)
(* ===================================================================== *)

(** [range(a, b)] for two integers: [a, a+1, ..., b-1], empty when
    [b <= a]. *)
Definition py_range (a b : Z) : list Z :=
  (λ k : nat, a + Z.of_nat k) <$> seq 0 (Z.to_nat (b - a)).

(** Body of the loop of [get_text_of_ocr_pages]:
    [text += page_text + "\n"] under the bounds test. *)
Definition get_text_step (ocr_results : list Page.t) (text : string)
  (page_num : Z) : string :=
  if (0 <=? page_num) && (page_num <? len ocr_results) then
    match ocr_results !! Z.to_nat page_num with
    | Some page_data =>
        text +:+ (extract_text_from_ocr_page page_data +:+ Py.nl)
    | None => text
    end
  else text.

Definition get_text_of_ocr_pages (ocr_results : list Page.t)
  (start_page end_page : Z) : string :=
  fold_left (get_text_step ocr_results) (py_range (start_page - 1) end_page) "".

(** The f-string of [get_text_of_ocr_pages_with_labels] for one page:
    the same tag opens and closes the block. *)
Definition labelled_block (page_num : Z) (page_text : string) : string :=
  "<physical_index_" +:+ Py.str (page_num + 1) +:+ ">" +:+ Py.nl
  +:+ page_text +:+ Py.nl
  +:+ "<physical_index_" +:+ Py.str (page_num + 1) +:+ ">" +:+ Py.nl.

Definition get_text_labels_step (ocr_results : list Page.t) (text : string)
  (page_num : Z) : string :=
  if (0 <=? page_num) && (page_num <? len ocr_results) then
    match ocr_results !! Z.to_nat page_num with
    | Some page_data =>
        text +:+ labelled_block page_num (extract_text_from_ocr_page page_data)
    | None => text
    end
  else text.

Definition get_text_of_ocr_pages_with_labels (ocr_results : list Page.t)
  (start_page end_page : Z) : string :=
  fold_left (get_text_labels_step ocr_results)
    (py_range (start_page - 1) end_page) "".

(** [if 'bbox' in item and 'text' in item] *)
Definition has_bbox_and_text (item : LayoutItem.t) : Prop :=
  is_Some (LayoutItem.bbox item) ∧ is_Some (LayoutItem.text item).

Section ViewMethods.
(** [bool(ocr_data)] for a page dictionary: false for the dictionary
    without any key only.  The record keeps the two keys the code reads,
    a page may carry others, so the truth value is given from outside;
    [truthy_keys] is what Python guarantees about it. *)
Variable dict_truthy : Page.t → bool.

Definition truthy_keys : Prop :=
  ∀ page_data, dict_truthy page_data = false →
    Page.page_no page_data = None ∧ Page.full_layout_info page_data = None.

(** [OCRPageListWrapper.find_text_bbox] *)
Definition find_text_bbox (self : OCRPageListWrapper) (page_index : Z)
  (text : string) : option Bbox :=
  match get_ocr_data self page_index with
  | Some ocr_data =>
      if dict_truthy ocr_data
      then find_text_bbox_in_page ocr_data text true
      else None
  | None => None
  end.

(** [OCRPageListWrapper.get_all_bboxes_for_page] *)
Definition get_all_bboxes_for_page (self : OCRPageListWrapper)
  (page_index : Z) : list LayoutItem.t :=
  match get_ocr_data self page_index with
  | Some ocr_data =>
      if negb (dict_truthy ocr_data) then []
      else match Page.full_layout_info ocr_data with
           | None => []
           | Some items => filter has_bbox_and_text items
           end
  | None => []
  end.
End ViewMethods.

(** The pages [get_text_of_ocr_pages] reads for the 1-based inclusive
    range [start_page .. end_page]: the range cut to the pages there are. *)
Definition pages_between (ocr_results : list Page.t) (start_page end_page : Z)
  : list Page.t :=
  let first := Z.to_nat (Z.max 0 (start_page - 1)) in
  take (Z.to_nat end_page - first) (drop first ocr_results).

(** Concatenation of a list of strings. *)
Definition concat_strings (l : list string) : string :=
  foldr String.append "" l.

(** The page [get_text_of_ocr_pages] reads at [page_num], if any. *)
Definition page_of (ocr_results : list Page.t) (page_num : Z) : option Page.t :=
  if (0 <=? page_num) && (page_num <? len ocr_results)
  then ocr_results !! Z.to_nat page_num else None.

(** The text block of a page in [get_text_of_ocr_pages]. *)
Definition text_block (page_data : Page.t) : string :=
  extract_text_from_ocr_page page_data +:+ Py.nl.

(** The truth value of a page dictionary that has no key besides the two
    of the record. *)
Definition two_key_truthy (page_data : Page.t) : bool :=
  match Page.page_no page_data, Page.full_layout_info page_data with
  | None, None => false
  | _, _ => true
  end.

(** The headers of each level, and the level-2 items recorded under the
    parent ordinal [p]. *)
Definition level1_headers (headers : list Header.t) : list Header.t :=
  filter (λ h, header_level (Header.text h) = 1) headers.

Definition level2_headers (headers : list Header.t) : list Header.t :=
  filter (λ h, header_level (Header.text h) = 2) headers.

Definition children_of (p : Z) (toc_items : list TocItem.t) : list TocItem.t :=
  filter (λ h, TocItem.level h = 2 ∧ TocItem.parent_section h = Some p)
    toc_items.

(** No recorded parent ordinal exceeds the number of level-1 items. *)
Definition parents_bounded (toc_items : list TocItem.t) : Prop :=
  Forall (λ h, ∀ p, TocItem.parent_section h = Some p →
                    p ≤ len (level1_items toc_items)) toc_items.

(** The bbox of an item the matcher can return: the item has a text and a
    bbox. *)
Definition boxed (item : LayoutItem.t) : option Bbox :=
  match LayoutItem.text item, LayoutItem.bbox item with
  | Some _, Some b => Some b
  | _, _ => None
  end.

(** A string that does not begin with a white-space character. *)
Definition starts_nonspace (s : string) : Prop :=
  match s with
  | EmptyString => True
  | String c _ => Py.isspace c = false
  end.

(* ===================================================================== *)
(** ** Python string operations: basic facts *)
(* ===================================================================== *)

Lemma gt_half_spec n m : Py.gt_half n m = true ↔ m < 2 * n.
Proof.
  unfold Py.gt_half. rewrite negb_true_iff, <- not_true_iff_false, Qle_bool_iff.
  unfold Qle. simpl. lia.
Qed.

(* ===================================================================== *)
(** ** Page Text Extractor *)
(* ===================================================================== *)

Lemma extract_text_loop items : ∀ texts,
  fold_left extract_text_step items texts = texts ++ trimmed_texts items.
Proof.
  unfold trimmed_texts.
  induction items as [|item items IH]; intros texts; simpl.
  - by rewrite app_nil_r.
  - rewrite IH. unfold extract_text_step.
    destruct (LayoutItem.text item) as [t|]; simpl; [|done].
    rewrite filter_cons.
    destruct (Py.strip t) eqn:E; simpl; [done|].
    by rewrite <- app_assoc.
Qed.

(** C8: the Page Text Extractor returns the trimmed, non-empty text fields
    of the page's layout items, in item order, joined by newline; it is a
    total function, and a page without layout data, or without a
    qualifying item, gives the empty string. *)
Theorem extract_text_from_ocr_page_spec (page_data : Page.t) :
  extract_text_from_ocr_page page_data
    = Py.join Py.nl (trimmed_texts (page_items page_data))
  ∧ (Page.full_layout_info page_data = None →
     extract_text_from_ocr_page page_data = "")
  ∧ (trimmed_texts (page_items page_data) = [] →
     extract_text_from_ocr_page page_data = "").
Proof.
  assert (E : extract_text_from_ocr_page page_data
              = Py.join Py.nl (trimmed_texts (page_items page_data))).
  { unfold extract_text_from_ocr_page, page_items.
    destruct (Page.full_layout_info page_data) as [items|]; simpl; [|done].
    by rewrite extract_text_loop. }
  split; [done|]. split.
  - intros H. unfold extract_text_from_ocr_page. by rewrite H.
  - intros H. by rewrite E, H.
Qed.

Lemma extract_text_from_ocr_page_spec_witness :
  extract_text_from_ocr_page (Page.mk (Some 3) None) = ""
  ∧ extract_text_from_ocr_page
      (Page.mk (Some 4)
         (Some [LayoutItem.mk (Some "   ") (Some [0; 0; 10; 10]) None;
                LayoutItem.mk None (Some [0; 20; 10; 30]) (Some "Picture")]))
    = "".
Proof.
  split.
  - apply (extract_text_from_ocr_page_spec (Page.mk (Some 3) None)).
    reflexivity.
  - apply (extract_text_from_ocr_page_spec
             (Page.mk (Some 4)
                (Some [LayoutItem.mk (Some "   ") (Some [0; 0; 10; 10]) None;
                       LayoutItem.mk None (Some [0; 20; 10; 30])
                         (Some "Picture")]))).
    reflexivity.
Defined.

(* ===================================================================== *)
(** ** Header Locator *)
(* ===================================================================== *)

Lemma header_fields_Some item t b c :
  header_fields item = Some (t, b, c) →
  is_section_header item
  ∧ LayoutItem.text item = Some t ∧ LayoutItem.bbox item = Some b
  ∧ LayoutItem.category item = Some c.
Proof.
  unfold header_fields, is_section_header.
  destruct (LayoutItem.category item) as [c'|]; [|done].
  destruct (LayoutItem.text item) as [t'|]; [|done].
  destruct (LayoutItem.bbox item) as [b'|]; [|done].
  destruct (Py.contains section_marker c') eqn:E; [|done].
  intros [= <- <- <-]. eauto 10.
Qed.

Lemma header_fields_None item :
  header_fields item = None → ¬ is_section_header item.
Proof.
  unfold header_fields, is_section_header.
  intros H ((c & Hc & Hm) & [t Ht] & [b Hb]).
  rewrite Hc, Ht, Hb, Hm in H. done.
Qed.

Lemma headers_item_loop page_data items : ∀ headers,
  fold_left (headers_item_step (default 0 (Page.page_no page_data))) items headers
  = headers ++ (header_record page_data <$> filter is_section_header items).
Proof.
  induction items as [|item items IH]; intros headers; simpl.
  - by rewrite app_nil_r.
  - rewrite IH, filter_cons. unfold headers_item_step.
    destruct (header_fields item) as [[[t b] c]|] eqn:E.
    + apply header_fields_Some in E as (Hq & Ht & Hb & Hc).
      rewrite decide_True by done. rewrite <- app_assoc. simpl.
      unfold header_record at 2. by rewrite Ht, Hb, Hc.
    + apply header_fields_None in E. by rewrite decide_False.
Qed.

Lemma headers_page_loop pages : ∀ headers,
  fold_left headers_page_step pages headers
  = headers ++ (pages ≫= λ page_data,
                  header_record page_data
                    <$> filter is_section_header (page_items page_data)).
Proof.
  induction pages as [|page_data pages IH]; intros headers; simpl.
  - by rewrite app_nil_r.
  - rewrite IH. unfold headers_page_step, page_items.
    destruct (Page.full_layout_info page_data) as [items|]; simpl.
    + by rewrite headers_item_loop, <- app_assoc.
    + done.
Qed.

(** C7: the Header Locator returns, page after page and in item order
    within a page, one Header Record for each layout item whose category
    contains "Section-header" and which has a text and a bbox, and for no
    other item; the physical index of every record is its page number
    plus 1, and its category contains the marker. *)
Theorem extract_section_headers_with_bbox_spec (ocr_results : list Page.t) :
  extract_section_headers_with_bbox ocr_results
    = (ocr_results ≫= λ page_data,
         header_record page_data
           <$> filter is_section_header (page_items page_data))
  ∧ Forall (λ h, Header.physical_index h = Header.page_no h + 1
               ∧ Py.contains "Section-header" (Header.category h) = true)
      (extract_section_headers_with_bbox ocr_results).
Proof.
  assert (E : extract_section_headers_with_bbox ocr_results
              = (ocr_results ≫= λ page_data,
                   header_record page_data
                     <$> filter is_section_header (page_items page_data))).
  { unfold extract_section_headers_with_bbox. by rewrite headers_page_loop. }
  split; [done|]. rewrite E.
  apply Forall_forall. intros h Hh.
  apply list_elem_of_bind in Hh as (page_data & Hh & _).
  apply list_elem_of_fmap in Hh as (item & -> & Hitem).
  apply list_elem_of_filter in Hitem as [((c & Hc & Hm) & _) _].
  simpl. by rewrite Hc.
Qed.

(* ===================================================================== *)
(** ** Paged Token View *)
(* ===================================================================== *)

Section TokenView.
Context {Token : Type}.
Variable encoding_for_model : string → string → list Token.

Lemma get_page_tokens_loop model pages : ∀ page_list,
  fold_left (λ page_list page_data, page_list ++ [page_pair encoding_for_model model page_data])
    pages page_list
  = page_list ++ (page_pair encoding_for_model model <$> pages).
Proof.
  induction pages as [|p pages IH]; intros page_list; simpl.
  - by rewrite app_nil_r.
  - by rewrite IH, <- app_assoc.
Qed.

Lemma get_page_tokens_from_ocr_fmap pages model :
  get_page_tokens_from_ocr encoding_for_model pages model
  = page_pair encoding_for_model model <$> pages.
Proof. apply (get_page_tokens_loop model pages []). Qed.

Lemma list_getitem_Ok {A} (l : list A) i x :
  l !! i = Some x → list_getitem l (Z.of_nat i) = Ok x.
Proof.
  intros H. unfold list_getitem.
  pose proof (lookup_lt_Some _ _ _ H).
  replace (Z.of_nat i <? 0) with false by lia.
  replace ((Z.of_nat i <? 0) || (Z.of_nat (length l) <=? Z.of_nat i))
    with false by lia.
  by rewrite Nat2Z.id, H.
Qed.

Lemma list_getitem_Raise {A} (l : list A) i :
  (∃ e, list_getitem l i = Raise e) ↔ i < - len l ∨ len l ≤ i.
Proof.
  unfold list_getitem, len. set (n := Z.of_nat (length l)).
  destruct (i <? 0) eqn:Hneg.
  - destruct ((i + n <? 0) || (n <=? i + n)) eqn:Hout.
    + split; [lia | eauto].
    + destruct (l !! Z.to_nat (i + n)) eqn:Hl.
      * split; [intros [e [=]] | lia].
      * apply lookup_ge_None in Hl. lia.
  - destruct ((i <? 0) || (n <=? i)) eqn:Hout.
    + split; [lia | eauto].
    + destruct (l !! Z.to_nat i) eqn:Hl.
      * split; [intros [e [=]] | lia].
      * apply lookup_ge_None in Hl. lia.
Qed.

(** C9: the view built from [ocr_results] has as many pairs as there are
    pages, the pair at an in-range index carries the Page Text Extractor
    output of the page at that index, and an index at or beyond the
    length raises [IndexError]. *)
Theorem wrapper_view_spec (ocr_results : list Page.t) (model : string) :
  let view := create_ocr_page_list_wrapper encoding_for_model ocr_results model in
  wrapper_len view = len ocr_results
  ∧ (∀ (i : nat) page_data, ocr_results !! i = Some page_data →
       ∃ count, wrapper_getitem view (Z.of_nat i)
                = Ok (extract_text_from_ocr_page page_data, count))
  ∧ (∀ i : Z, wrapper_len view ≤ i →
       wrapper_getitem view i = Raise IndexError).
Proof.
  simpl. unfold wrapper_len, wrapper_getitem, len. simpl.
  rewrite get_page_tokens_from_ocr_fmap.
  split; [by rewrite length_fmap|]. split.
  - intros i page_data Hi. eexists. apply list_getitem_Ok.
    rewrite list_lookup_fmap, Hi. done.
  - intros i Hi.
    destruct (proj2 (list_getitem_Raise (page_pair encoding_for_model model <$> ocr_results) i))
      as [[] He]; [right; done | done].
Qed.

(** C10: on a view of length [n], an index [i] with [-n ≤ i ≤ -1] does
    not raise: it gives the pair at position [n + i]; indexed access
    raises exactly for [i < -n] and for [i ≥ n]. *)
Theorem wrapper_getitem_negative (self : OCRPageListWrapper) :
  let n := wrapper_len self in
  (∀ i : Z, - n ≤ i ≤ -1 →
     ∃ pair, _page_list self !! Z.to_nat (n + i) = Some pair
             ∧ wrapper_getitem self i = Ok pair)
  ∧ (∀ i : Z, (∃ e, wrapper_getitem self i = Raise e) ↔ i < - n ∨ n ≤ i).
Proof.
  simpl. split.
  - intros i Hi. unfold wrapper_getitem, wrapper_len, list_getitem in *.
    set (n := Z.of_nat (length (_page_list self))) in *.
    replace (i <? 0) with true by lia.
    replace ((i + n <? 0) || (n <=? i + n)) with false by lia.
    rewrite (Z.add_comm n i).
    destruct (_page_list self !! Z.to_nat (i + n)) as [pair|] eqn:Hl.
    + by exists pair.
    + apply lookup_ge_None in Hl. lia.
  - intros i. apply list_getitem_Raise.
Qed.
End TokenView.

Lemma wrapper_view_spec_witness :
  let pages :=
    [Page.mk (Some 0)
       (Some [LayoutItem.mk (Some " Title ") (Some [0; 0; 10; 10]) None]);
     Page.mk (Some 1)
       (Some [LayoutItem.mk (Some "Body text") (Some [0; 0; 10; 10]) None])] in
  let view :=
    create_ocr_page_list_wrapper (λ _, Py.split) pages "gpt-4o-2024-11-20" in
  wrapper_len view = 2
  ∧ (∃ count, wrapper_getitem view (Z.of_nat 1) = Ok ("Body text", count))
  ∧ wrapper_getitem view 2 = Raise IndexError.
Proof.
  intros pages view.
  destruct (wrapper_view_spec (λ _, Py.split) pages "gpt-4o-2024-11-20")
    as (Hlen & Hin & Hout).
  split; [exact Hlen|]. split.
  - apply (Hin 1%nat
             (Page.mk (Some 1)
                (Some [LayoutItem.mk (Some "Body text")
                         (Some [0; 0; 10; 10]) None]))).
    reflexivity.
  - apply Hout. vm_compute. discriminate.
Defined.

Lemma wrapper_getitem_negative_witness :
  let self :=
    mkWrapper [] "gpt-4o-2024-11-20" [("first page", 2); ("last page", 2)] in
  ∃ pair, _page_list self !! Z.to_nat (2 + -1) = Some pair
          ∧ wrapper_getitem self (-1) = Ok pair.
Proof.
  intros self.
  destruct (wrapper_getitem_negative self) as [Hneg _].
  apply (Hneg (-1)). vm_compute. split; discriminate.
Defined.

(* ===================================================================== *)
(** ** Hierarchy Inferencer *)
(* ===================================================================== *)

Lemma header_level_2 text :
  Py.startswith text "##" = true → Py.startswith text "###" = false →
  header_level text = 2.
Proof.
  unfold header_level.
  destruct text as [|a [|b [|c [|d s]]]]; simpl;
    repeat (case_match; simpl; try done); by intros [=].
Qed.

(** The loop only appends: the items emitted so far stay in place. *)
Lemma detect_loop_app headers : ∀ toc_items,
  ∃ new, fold_left detect_step headers toc_items = toc_items ++ new
         ∧ length new = length headers.
Proof.
  induction headers as [|h headers IH]; intros toc_items; simpl.
  - exists []. by rewrite app_nil_r.
  - destruct (IH (detect_step toc_items h)) as (new & -> & Hlen).
    exists (toc_item_of toc_items h :: new). unfold detect_step.
    rewrite <- app_assoc. simpl. by rewrite Hlen.
Qed.

(** The item emitted for the header that follows [pre]. *)
Lemma detect_loop_lookup pre h post :
  fold_left detect_step (pre ++ h :: post) [] !! length pre
  = Some (toc_item_of (fold_left detect_step pre []) h).
Proof.
  rewrite fold_left_app. simpl.
  destruct (detect_loop_app pre []) as (new & E & Hlen). simpl in E.
  assert (Hpre : length (fold_left detect_step pre []) = length pre)
    by (by rewrite E).
  set (toc_items := fold_left detect_step pre []) in *.
  destruct (detect_loop_app post (detect_step toc_items h)) as (new' & -> & _).
  unfold detect_step. rewrite <- app_assoc. simpl.
  by rewrite list_lookup_middle.
Qed.

Lemma level1_items_orphans toc_items :
  Forall orphan toc_items → level1_items toc_items = [].
Proof.
  unfold level1_items. induction 1 as [|x l [Hx _] _ IH]; [done|].
  rewrite filter_cons, decide_False by done. done.
Qed.

Lemma toc_item_of_orphan toc_items h :
  Forall orphan toc_items → header_level (Header.text h) ≠ 1 →
  orphan (toc_item_of toc_items h).
Proof.
  intros Ho Hl. split; simpl; [done|].
  rewrite (level1_items_orphans _ Ho). simpl.
  by rewrite andb_false_r.
Qed.

Lemma detect_loop_orphans pre : ∀ toc_items,
  Forall (λ h, header_level (Header.text h) ≠ 1) pre →
  Forall orphan toc_items →
  Forall orphan (fold_left detect_step pre toc_items).
Proof.
  induction pre as [|h pre IH]; intros toc_items Hpre Ho; simpl; [done|].
  inversion Hpre; subst. apply IH; [done|].
  unfold detect_step. apply Forall_app. split; [done|].
  apply Forall_singleton. by apply toc_item_of_orphan.
Qed.

Lemma no_child_of_zero toc_items :
  Forall orphan toc_items →
  filter (λ h, TocItem.level h = 2 ∧ TocItem.parent_section h = Some 0)
    toc_items = [].
Proof.
  induction 1 as [|x l [_ Hx] _ IH]; [done|].
  rewrite filter_cons, decide_False; [done|]. rewrite Hx. by intros [_ ?].
Qed.

(** C1 (amended): a level-2 header met before any level-1 header has been
    emitted gives a TOC Node without parent-section field, whose structure
    path is present: it is the string "0.1". *)
Theorem orphan_level2_node (pre post : list Header.t) (h : Header.t) :
  Forall (λ x, header_level (Header.text x) ≠ 1) pre →
  Py.startswith (Header.text h) "##" = true →
  Py.startswith (Header.text h) "###" = false →
  ∃ node,
    TocResult.toc_items (detect_toc_from_headers (pre ++ h :: post))
      !! length pre = Some node
    ∧ TocItem.level node = 2
    ∧ TocItem.parent_section node = None
    ∧ TocItem.structure node = Some "0.1".
Proof.
  intros Hpre H2 H3. eexists. split.
  - simpl. apply detect_loop_lookup.
  - pose proof (detect_loop_orphans pre [] Hpre (Forall_nil_2 _)) as Ho.
    pose proof (header_level_2 _ H2 H3) as Hl.
    unfold toc_item_of. simpl. rewrite Hl.
    rewrite (level1_items_orphans _ Ho). simpl.
    change (len (@nil TocItem.t)) with 0.
    rewrite (no_child_of_zero _ Ho). done.
Qed.

Lemma orphan_level2_node_witness :
  ∃ node,
    TocResult.toc_items
      (detect_toc_from_headers
         ([Header.mk 0 "### Notes" [10; 20; 300; 40] "Section-header" 1]
          ++ Header.mk 0 "## Scope" [10; 60; 300; 80] "Section-header" 1
          :: [Header.mk 1 "# Intro" [10; 20; 300; 40] "Section-header" 2]))
      !! 1%nat = Some node
    ∧ TocItem.level node = 2
    ∧ TocItem.parent_section node = None
    ∧ TocItem.structure node = Some "0.1".
Proof.
  apply (orphan_level2_node
           [Header.mk 0 "### Notes" [10; 20; 300; 40] "Section-header" 1]
           [Header.mk 1 "# Intro" [10; 20; 300; 40] "Section-header" 2]
           (Header.mk 0 "## Scope" [10; 60; 300; 80] "Section-header" 1)).
  - apply Forall_singleton. vm_compute. discriminate.
  - reflexivity.
  - reflexivity.
Defined.

(** C1, as stated, fails: the single header "## Scope" is a level-2 header
    with no level-1 header before it, and its node has the structure path
    "0.1", not [None]. *)
Lemma orphan_level2_structure_not_None :
  let h := Header.mk 0 "## Scope" [10; 60; 300; 80] "Section-header" 1 in
  Py.startswith (Header.text h) "##" = true
  ∧ Py.startswith (Header.text h) "###" = false
  ∧ ∃ node,
      TocResult.toc_items (detect_toc_from_headers ([] ++ h :: [])) !! 0%nat
        = Some node
      ∧ TocItem.parent_section node = None
      ∧ TocItem.structure node = Some "0.1"
      ∧ TocItem.structure node ≠ None.
Proof.
  simpl. split; [done|]. split; [done|].
  eexists. split; [reflexivity|]. simpl. done.
Qed.

(** C3: the headers "# A", "## B", "## C", "# D" give four nodes, in the
    order of the headers, with structure paths "1", "1.1", "1.2", "2",
    titles "A", "B", "C", "D", and parent-section 1 on B and C only;
    each node keeps the physical index, bbox and page number of its
    header. *)
Theorem detect_toc_four_headers
  (pA pB pC pD : Z) (bA bB bC bD : Bbox) (cA cB cC cD : string)
  (iA iB iC iD : Z) :
  detect_toc_from_headers
    [Header.mk pA "# A" bA cA iA; Header.mk pB "## B" bB cB iB;
     Header.mk pC "## C" bC cC iC; Header.mk pD "# D" bD cD iD]
  = TocResult.mk
      [TocItem.mk (Some "1") "A" iA bA pA 1 None;
       TocItem.mk (Some "1.1") "B" iB bB pB 2 (Some 1);
       TocItem.mk (Some "1.2") "C" iC bC pC 2 (Some 1);
       TocItem.mk (Some "2") "D" iD bD pD 1 None]
      true.
Proof. reflexivity. Qed.

(* ===================================================================== *)
(** ** Fuzzy Anchor Matcher *)
(* ===================================================================== *)

(** C2 (amended): on the cleaned query and item text, the word-overlap
    rule fires exactly when twice the size of the intersection of the two
    word sets exceeds the smaller of the two word counts, each count being
    the length of the whitespace-split token list, repeated words
    included. *)
Theorem word_overlap_spec (search_text item_text : string) :
  word_overlap (clean search_text) (clean item_text) = true
  ↔ Z.min (len (Py.split (clean search_text)))
          (len (Py.split (clean item_text)))
    < 2 * Z.of_nat (size (word_set (clean search_text)
                          ∩ word_set (clean item_text))).
Proof. unfold word_overlap. apply gt_half_spec. Qed.

(** C2, as stated, fails: for the query "go go go go" and the item text
    "go to the sea" the word sets share one word and the smaller set has
    one word, so the rule worded on sets holds, while the code compares
    with four tokens and does not fire. *)
Lemma word_overlap_not_of_sets :
  word_overlap_of_sets (clean "go go go go") (clean "go to the sea")
  ∧ word_overlap (clean "go go go go") (clean "go to the sea") = false
  ∧ ¬ (word_overlap (clean "go go go go") (clean "go to the sea") = true
       ↔ word_overlap_of_sets (clean "go go go go") (clean "go to the sea")).
Proof.
  assert (H1 : word_overlap_of_sets (clean "go go go go") (clean "go to the sea"))
    by (vm_compute; reflexivity).
  assert (H2 : word_overlap (clean "go go go go") (clean "go to the sea") = false)
    by (vm_compute; reflexivity).
  split; [done|]. split; [done|].
  intros [_ H]. rewrite (H H1) in H2. discriminate.
Qed.

(** The two fuzzy-mode cases of the specification's test list: the words
    "chapter" and "overview" are shared, 2 of min(3, 6) = 3 tokens. *)
Example fuzzy_chapter_one :
  find_text_bbox_in_page
    (Page.mk (Some 0)
       (Some [LayoutItem.mk (Some "Page 3") None (Some "Page-header");
              LayoutItem.mk (Some "chapter one: overview of the topic")
                (Some [72; 90; 540; 120]) (Some "Section-header")]))
    "Chapter One  Overview" true
  = Some [72; 90; 540; 120].
Proof. reflexivity. Qed.

Example fuzzy_zebra_finance :
  find_text_bbox_in_page
    (Page.mk (Some 0)
       (Some [LayoutItem.mk (Some "chapter one: overview of the topic")
                (Some [72; 90; 540; 120]) (Some "Section-header")]))
    "Zebra Finance" true
  = None.
Proof. reflexivity. Qed.

(** The scan stops at the first item that is a hit, and gives its bbox;
    it gives [None] when no item is a hit. *)
Lemma scan_items_spec fuzzy_match search_text items :
  (∃ pre item post t b,
      items = pre ++ item :: post
      ∧ Forall (λ it, ¬ is_hit fuzzy_match search_text it) pre
      ∧ LayoutItem.text item = Some t ∧ LayoutItem.bbox item = Some b
      ∧ text_matches fuzzy_match (clean search_text) (clean t) = true
      ∧ scan_items fuzzy_match (clean search_text) items = Some b)
  ∨ (Forall (λ it, ¬ is_hit fuzzy_match search_text it) items
     ∧ scan_items fuzzy_match (clean search_text) items = None).
Proof.
  induction items as [|item items IH]; simpl.
  - right. done.
  - assert (Hskip : ¬ is_hit fuzzy_match search_text item →
      (∃ pre item' post t b,
          item :: items = pre ++ item' :: post
          ∧ Forall (λ it, ¬ is_hit fuzzy_match search_text it) pre
          ∧ LayoutItem.text item' = Some t ∧ LayoutItem.bbox item' = Some b
          ∧ text_matches fuzzy_match (clean search_text) (clean t) = true
          ∧ scan_items fuzzy_match (clean search_text) items = Some b)
      ∨ (Forall (λ it, ¬ is_hit fuzzy_match search_text it) (item :: items)
         ∧ scan_items fuzzy_match (clean search_text) items = None)).
    { intros Hno.
      destruct IH as [(pre & item' & post & t & b & -> & Hpre & Ht & Hb & Hm & Hs)
                     |[Hall Hs]].
      - left. exists (item :: pre), item', post, t, b.
        split; [done|]. split; [by constructor|]. done.
      - right. split; [by constructor|done]. }
    destruct (LayoutItem.text item) as [t|] eqn:Ht.
    + destruct (LayoutItem.bbox item) as [b|] eqn:Hb.
      * destruct (text_matches fuzzy_match (clean search_text) (clean t)) eqn:Hm.
        -- left. exists [], item, items, t, b. done.
        -- apply Hskip. intros (t' & b' & Ht' & Hb' & Hm'). congruence.
      * apply Hskip. intros (t' & b' & Ht' & Hb' & Hm'). congruence.
    + apply Hskip. intros (t' & b' & Ht' & Hb' & Hm'). congruence.
Qed.

(** C4 (amended): in fuzzy mode the matcher returns the bbox of the first
    layout item, in item order, that has a text and a bbox and for which
    the cleaned query is a substring of the cleaned item text, or the
    cleaned item text a substring of the cleaned query, or the
    word-overlap rule fires, the rule being taken with the smaller of the
    two token counts (repeated words counted): twice the size of the
    intersection of the word sets exceeds that minimum; it returns [None]
    when no item is such, and when the page has no layout data. *)
Theorem find_text_bbox_fuzzy (page_data : Page.t) (search_text : string) :
  let first_rule it :=
    ∃ t b, LayoutItem.text it = Some t ∧ LayoutItem.bbox it = Some b
           ∧ (Py.contains (clean search_text) (clean t) = true
              ∨ Py.contains (clean t) (clean search_text) = true
              ∨ Z.min (len (Py.split (clean search_text)))
                      (len (Py.split (clean t)))
                < 2 * Z.of_nat (size (word_set (clean search_text)
                                      ∩ word_set (clean t)))) in
  match Page.full_layout_info page_data with
  | None => find_text_bbox_in_page page_data search_text true = None
  | Some items =>
      (∃ pre item post b,
          items = pre ++ item :: post
          ∧ Forall (λ it, ¬ first_rule it) pre
          ∧ first_rule item
          ∧ LayoutItem.bbox item = Some b
          ∧ find_text_bbox_in_page page_data search_text true = Some b)
      ∨ (Forall (λ it, ¬ first_rule it) items
         ∧ find_text_bbox_in_page page_data search_text true = None)
  end.
Proof.
  intros first_rule.
  assert (Hiff : ∀ it, first_rule it ↔ is_hit true search_text it).
  { intros it. unfold first_rule, is_hit, text_matches, word_overlap.
    split; intros (t & b & Ht & Hb & H); exists t, b;
      (split; [done|]); (split; [done|]).
    - destruct H as [H | [H | H]].
      + by rewrite H.
      + rewrite H. by rewrite orb_true_r.
      + apply gt_half_spec in H. rewrite H. by rewrite orb_true_r.
    - apply orb_true_iff in H as [H|H].
      + apply orb_true_iff in H as [H|H]; by auto.
      + right. right. by apply gt_half_spec. }
  assert (Hall : ∀ l, Forall (λ it, ¬ is_hit true search_text it) l →
                      Forall (λ it, ¬ first_rule it) l).
  { intros l Hl. eapply Forall_impl; [exact Hl|].
    intros it Hn Hf. by apply Hn, Hiff. }
  unfold find_text_bbox_in_page.
  destruct (Page.full_layout_info page_data) as [items|]; [|done].
  destruct (scan_items_spec true search_text items)
    as [(pre & item & post & t & b & -> & Hpre & Ht & Hb & Hm & Hs)|[Hno Hs]].
  - left. exists pre, item, post, b.
    split; [done|]. split; [by apply Hall|].
    split; [apply Hiff; by exists t, b|]. done.
  - right. split; [by apply Hall|done].
Qed.

(** C4, as stated, fails: with the word-overlap rule taken over the sizes
    of the word sets, the only item of the page below, "go to the sea",
    satisfies the rule for the query "go go go go" (one shared word, the
    smaller set has one word), has a text and a bbox, and yet the matcher
    returns [None]: neither case of the claim holds. *)
Lemma fuzzy_first_match_not_of_sets :
  let item := LayoutItem.mk (Some "go to the sea") (Some [1; 2; 3; 4]) None in
  let page_data := Page.mk (Some 0) (Some [item]) in
  let search_text := "go go go go" in
  let first_rule it :=
    ∃ t b, LayoutItem.text it = Some t ∧ LayoutItem.bbox it = Some b
           ∧ (Py.contains (clean search_text) (clean t) = true
              ∨ Py.contains (clean t) (clean search_text) = true
              ∨ word_overlap_of_sets (clean search_text) (clean t)) in
  find_text_bbox_in_page page_data search_text true = None
  ∧ first_rule item
  ∧ ¬ ((∃ pre it post b,
          [item] = pre ++ it :: post
          ∧ Forall (λ it', ¬ first_rule it') pre
          ∧ first_rule it
          ∧ LayoutItem.bbox it = Some b
          ∧ find_text_bbox_in_page page_data search_text true = Some b)
       ∨ (Forall (λ it', ¬ first_rule it') [item]
          ∧ find_text_bbox_in_page page_data search_text true = None)).
Proof.
  intros item page_data search_text first_rule.
  assert (Hnone : find_text_bbox_in_page page_data search_text true = None)
    by reflexivity.
  assert (Hrule : first_rule item).
  { exists "go to the sea", [1; 2; 3; 4].
    split; [done|]. split; [done|]. right. right.
    vm_compute. reflexivity. }
  split; [done|]. split; [done|].
  intros [(pre & it & post & b & _ & _ & _ & _ & Hf) | [Hall _]].
  - rewrite Hnone in Hf. discriminate.
  - apply Forall_cons in Hall as [Hno _]. by apply Hno.
Qed.

(** C5: in exact mode the matcher returns the bbox of the first layout
    item that has a text and a bbox and whose cleaned text (lower-cased,
    trimmed, white space collapsed) equals the cleaned query; it returns
    [None] when the page has no such item; an item without text or
    without bbox never stops the scan and never provides the result. *)
Theorem find_text_bbox_exact (page_data : Page.t) (search_text : string) :
  let same_text it :=
    ∃ t b, LayoutItem.text it = Some t ∧ LayoutItem.bbox it = Some b
           ∧ Py.sub_spaces (Py.strip (Py.lower t))
             = Py.sub_spaces (Py.strip (Py.lower search_text)) in
  (∃ pre item post b,
      page_items page_data = pre ++ item :: post
      ∧ Forall (λ it, ¬ same_text it) pre
      ∧ same_text item
      ∧ LayoutItem.bbox item = Some b
      ∧ find_text_bbox_in_page page_data search_text false = Some b)
  ∨ (Forall (λ it, ¬ same_text it) (page_items page_data)
     ∧ find_text_bbox_in_page page_data search_text false = None).
Proof.
  intros same_text.
  assert (Hiff : ∀ it, same_text it ↔ is_hit false search_text it).
  { intros it. unfold same_text, is_hit, text_matches. fold (clean search_text).
    split; intros (t & b & Ht & Hb & H); exists t, b;
      (split; [done|]); (split; [done|]).
    - apply String.eqb_eq. by rewrite <- H.
    - apply String.eqb_eq in H. by rewrite H. }
  assert (Hall : ∀ l, Forall (λ it, ¬ is_hit false search_text it) l →
                      Forall (λ it, ¬ same_text it) l).
  { intros l Hl. eapply Forall_impl; [exact Hl|].
    intros it Hn Hf. by apply Hn, Hiff. }
  unfold find_text_bbox_in_page, page_items.
  destruct (Page.full_layout_info page_data) as [items|]; simpl.
  - destruct (scan_items_spec false search_text items)
      as [(pre & item & post & t & b & -> & Hpre & Ht & Hb & Hm & Hs)|[Hno Hs]].
    + left. exists pre, item, post, b.
      split; [done|]. split; [by apply Hall|].
      split; [apply Hiff; by exists t, b|]. done.
    + right. split; [by apply Hall|done].
  - right. done.
Qed.

(* ===================================================================== *)
(** ** TOC Anchoring Service *)
(* ===================================================================== *)

(** A bbox the matcher returns is the bbox of an item of the page. *)
Lemma find_text_bbox_in_page_elem page_data search_text fuzzy_match b :
  find_text_bbox_in_page page_data search_text fuzzy_match = Some b →
  ∃ item, item ∈ page_items page_data ∧ LayoutItem.bbox item = Some b.
Proof.
  unfold find_text_bbox_in_page, page_items.
  destruct (Page.full_layout_info page_data) as [items|]; [|done]. simpl.
  destruct (scan_items_spec fuzzy_match search_text items)
    as [(pre & item & post & t & b' & -> & _ & _ & Hb & _ & Hs)|[_ Hs]];
    rewrite Hs; intros [=]; subst.
  exists item. split; [|done]. apply elem_of_app. right. by left.
Qed.

Lemma find_text_bbox_in_page_wf page_data search_text fuzzy_match b :
  page_wf page_data →
  find_text_bbox_in_page page_data search_text fuzzy_match = Some b →
  length b = 4%nat.
Proof.
  intros Hwf Hf.
  apply find_text_bbox_in_page_elem in Hf as (item & Hin & Hb).
  unfold page_wf in Hwf. rewrite Forall_forall in Hwf.
  specialize (Hwf item Hin). by rewrite Hb in Hwf.
Qed.

Lemma page_at_Some ocr_results physical_index page_data :
  page_at ocr_results physical_index = Some page_data →
  page_data ∈ ocr_results.
Proof.
  unfold page_at. case_match; [|done]. apply list_elem_of_lookup_2.
Qed.

(** On well-formed pages, [enhanced_entry] does what is expected of it. *)
Lemma enhanced_entry_outcome {A} ocr_results (d : TocEntry.t A) :
  Forall page_wf ocr_results →
  entry_outcome ocr_results d (enhanced_entry ocr_results d).
Proof.
  intros Hwf. unfold entry_outcome, enhanced_entry. split.
  - intros physical_index title -> ->.
    destruct (page_at ocr_results physical_index) as [page_data|] eqn:Hp; [|done].
    destruct (find_text_bbox_in_page page_data title true) as [b|] eqn:Hf; [|done].
    rewrite Forall_forall in Hwf.
    pose proof (find_text_bbox_in_page_wf _ _ _ _
                  (Hwf _ (page_at_Some _ _ _ Hp)) Hf) as Hlen.
    by destruct b.
  - intros [-> | ->]; [done|]. by destruct (TocEntry.physical_index d).
Qed.

Lemma list_insert_middle {X} (l1 l2 : list X) (x y : X) :
  <[length l1 := y]> (l1 ++ x :: l2) = l1 ++ y :: l2.
Proof. rewrite insert_app_r_alt by lia. by rewrite Nat.sub_diag. Qed.

Section StoreProofs.
Context {A : Type}.
Implicit Types (s : store A) (d : TocEntry.t A).

Lemma anchor_entry_spec ocr_results d l s :
  s !! l = Some (ODict d) →
  anchor_entry ocr_results d l s
  = Done tt (<[l := ODict (enhanced_entry ocr_results d)]> s).
Proof.
  intros Hl.
  assert (Hid : ∀ X (x : X), ret x s = Done x (<[l := ODict d]> s)).
  { intros X x. unfold ret. by rewrite list_insert_id. }
  unfold anchor_entry, enhanced_entry, page_at, len.
  destruct (TocEntry.physical_index d) as [physical_index|] eqn:Hpi; [|done].
  destruct (TocEntry.title d) as [title|] eqn:Ht; [|done].
  destruct (0 <=? physical_index - 1) eqn:H0; simpl; [|done].
  destruct (ocr_results !! Z.to_nat (physical_index - 1)) as [page_data|] eqn:Hp.
  - apply lookup_lt_Some in Hp as Hlt.
    replace (physical_index - 1 <? Z.of_nat (length ocr_results)) with true by lia.
    destruct (find_text_bbox_in_page page_data title true) as [[|x xs]|]; try done.
    unfold bind, update_dict. rewrite Hl.
    apply lookup_lt_Some in Hl as Hlen.
    rewrite list_lookup_insert_eq by done.
    rewrite list_insert_insert_eq.
    unfold TocEntry.set_page_no, TocEntry.set_bbox. simpl.
    by rewrite Hpi, Ht.
  - by destruct (physical_index - 1 <? Z.of_nat (length ocr_results)).
Qed.

Lemma enhance_body_spec ocr_results s0 acc news item d :
  s0 !! item = Some (ODict d) →
  enhance_body ocr_results (length s0) item (s0 ++ OList acc :: news)
  = Done tt
      (s0 ++ OList (acc ++ [(length s0 + 1 + length news)%nat])
          :: news ++ [ODict (enhanced_entry ocr_results d)]).
Proof.
  intros Hitem.
  unfold enhance_body, bind, get_dict, alloc, list_append.
  rewrite lookup_app_l by (by eapply lookup_lt_Some).
  rewrite Hitem.
  set (s := s0 ++ OList acc :: news).
  assert (Hlen : length s = (length s0 + 1 + length news)%nat).
  { unfold s. rewrite length_app. simpl. lia. }
  rewrite (anchor_entry_spec _ _ _ _ (list_lookup_middle s [] (ODict d) _ eq_refl)).
  rewrite (list_insert_middle s []).
  unfold s. rewrite <- app_assoc. simpl.
  rewrite (list_lookup_middle s0 _ _ _ eq_refl).
  rewrite (list_insert_middle s0).
  fold s. by rewrite Hlen.
Qed.

Lemma enhance_loop_spec ocr_results s0 locs ds :
  Forall2 (λ l d, s0 !! l = Some (ODict d)) locs ds →
  ∀ acc news,
    enhance_loop ocr_results (length s0) locs (s0 ++ OList acc :: news)
    = Done tt
        (s0 ++ OList (acc ++ seq (length s0 + 1 + length news) (length locs))
            :: news ++ (ODict ∘ enhanced_entry ocr_results <$> ds)).
Proof.
  induction 1 as [|item d locs ds Hitem _ IH]; intros acc news; simpl.
  - unfold ret. by rewrite !app_nil_r.
  - unfold bind. rewrite (enhance_body_spec _ _ _ _ _ _ Hitem), IH.
    rewrite <- !app_assoc, length_app. simpl.
    by replace (length s0 + 1 + (length news + 1))%nat
      with (S (length s0 + 1 + length news)) by lia.
Qed.

(** The store after the call: the old store, then the new list, then the
    enhanced copies. *)
Lemma enhance_toc_with_bbox_run ocr_results s toc_items locs ds :
  s !! toc_items = Some (OList locs) →
  Forall2 (λ l d, s !! l = Some (ODict d)) locs ds →
  enhance_toc_with_bbox toc_items ocr_results s
  = Done (length s)
      (s ++ OList (seq (S (length s)) (length locs))
         :: (ODict ∘ enhanced_entry ocr_results <$> ds)).
Proof.
  intros Hlist Hlocs.
  unfold enhance_toc_with_bbox, bind, alloc, get_list.
  rewrite lookup_app_l by (by eapply lookup_lt_Some).
  rewrite Hlist, (enhance_loop_spec _ _ _ _ Hlocs [] []). simpl.
  unfold ret. by replace (length s + 1 + 0)%nat with (S (length s)) by lia.
Qed.

(** C6: the call returns a new list with one new entry per input entry, in
    order, and raises nothing; no object of the store it was called in is
    changed, so neither the input list nor an input entry is mutated; the
    new entry equals the input entry when the physical index designates no
    page or when the title finds no fuzzy match on its page; otherwise it
    is the input entry with the matched bbox and the page number recorded
    on the matched page, or the 0-based offset when the page records
    none. *)
Theorem enhance_toc_with_bbox_spec ocr_results s toc_items locs ds :
  s !! toc_items = Some (OList locs) →
  Forall2 (λ l d, s !! l = Some (ODict d)) locs ds →
  Forall page_wf ocr_results →
  ∃ enhanced_items s' outs,
    enhance_toc_with_bbox toc_items ocr_results s = Done enhanced_items s'
    ∧ (∀ l o, s !! l = Some o → s' !! l = Some o)
    ∧ s !! enhanced_items = None
    ∧ s' !! enhanced_items = Some (OList outs)
    ∧ Forall2 (λ out d,
                 s !! out = None
                 ∧ ∃ d', s' !! out = Some (ODict d')
                         ∧ entry_outcome ocr_results d d')
        outs ds.
Proof.
  intros Hlist Hlocs Hwf.
  eexists _, _, _. split; [by eapply enhance_toc_with_bbox_run|].
  split; [|split; [|split]].
  - intros l o Hl. rewrite lookup_app_l; [done|by eapply lookup_lt_Some].
  - by apply lookup_ge_None.
  - by apply list_lookup_middle.
  - apply Forall2_same_length_lookup_2.
    + rewrite length_seq. by eapply Forall2_length.
    + intros i out d Hout Hd.
      apply lookup_seq in Hout as [-> Hi]. split.
      * apply lookup_ge_None. lia.
      * exists (enhanced_entry ocr_results d). split.
        -- rewrite lookup_app_r by lia.
           replace (S (length s) + i - length s)%nat with (S i) by lia.
           simpl. by rewrite list_lookup_fmap, Hd.
        -- by apply enhanced_entry_outcome.
Qed.

End StoreProofs.

Lemma enhance_toc_with_bbox_spec_witness :
  let ocr_results :=
    [Page.mk (Some 7)
       (Some [LayoutItem.mk (Some "  1  Introduction ")
                (Some [10; 20; 300; 40]) (Some "Section-header")]);
     Page.mk None
       (Some [LayoutItem.mk (Some "Methods and data")
                (Some [10; 60; 300; 80]) None])] in
  let d1 := TocEntry.mk (Some 1) (Some "Introduction") None None "1" in
  let d2 := TocEntry.mk (Some 2) (Some "Methods") None None "2" in
  let d3 := TocEntry.mk (Some 2) (Some "Zebra Finance") None None "2.1" in
  let d4 := TocEntry.mk (Some 9) (Some "Methods and data") None None "3" in
  let s := [ODict d1; ODict d2; ODict d3; ODict d4; OList [0; 1; 2; 3]%nat] in
  ∃ enhanced_items s' outs,
    enhance_toc_with_bbox 4%nat ocr_results s = Done enhanced_items s'
    ∧ (∀ l o, s !! l = Some o → s' !! l = Some o)
    ∧ s !! enhanced_items = None
    ∧ s' !! enhanced_items = Some (OList outs)
    ∧ Forall2 (λ out d,
                 s !! out = None
                 ∧ ∃ d', s' !! out = Some (ODict d')
                         ∧ entry_outcome ocr_results d d')
        outs [d1; d2; d3; d4].
Proof.
  simpl.
  apply (enhance_toc_with_bbox_spec _ _ 4%nat [0; 1; 2; 3]%nat).
  - reflexivity.
  - repeat constructor.
  - repeat constructor.
Defined.

(* ===================================================================== *)
(** ** Text of page ranges *)
(* ===================================================================== *)

Lemma string_app_cons c s t : String c s +:+ t = String c (s +:+ t).
Proof. reflexivity. Qed.

Lemma string_app_nil_r s : s +:+ "" = s.
Proof. induction s as [|c s IH]; [done|]. by rewrite string_app_cons, IH. Qed.

Lemma string_app_assoc s t u : (s +:+ t) +:+ u = s +:+ (t +:+ u).
Proof.
  induction s as [|c s IH]; [done|]. by rewrite !string_app_cons, IH.
Qed.

Lemma concat_strings_app l1 l2 :
  concat_strings (l1 ++ l2) = concat_strings l1 +:+ concat_strings l2.
Proof.
  induction l1 as [|x l1 IH]; simpl; [done|].
  unfold concat_strings in *. simpl. by rewrite IH, string_app_assoc.
Qed.

Lemma py_range_nil a b : b ≤ a → py_range a b = [].
Proof. intros H. unfold py_range. by replace (Z.to_nat (b - a)) with 0%nat by lia. Qed.

Lemma py_range_cons a b : a < b → py_range a b = a :: py_range (a + 1) b.
Proof.
  intros H. unfold py_range.
  replace (Z.to_nat (b - a)) with (S (Z.to_nat (b - (a + 1)))) by lia.
  simpl. f_equal; [lia|].
  rewrite <- fmap_S_seq, <- list_fmap_compose.
  apply list_fmap_ext. intros _ k _. simpl. lia.
Qed.

Lemma py_range_app a m b :
  a ≤ m → m ≤ b → py_range a b = py_range a m ++ py_range m b.
Proof.
  intros Ham Hmb. unfold py_range.
  replace (Z.to_nat (b - a)) with (Z.to_nat (m - a) + Z.to_nat (b - m))%nat by lia.
  rewrite seq_app, fmap_app. f_equal. simpl.
  replace (Z.to_nat (m - a)) with (Z.to_nat (m - a) + 0)%nat at 1 by lia.
  rewrite <- fmap_add_seq, <- list_fmap_compose.
  apply list_fmap_ext. intros _ k _. simpl. lia.
Qed.

Lemma omap_cons_match {X Y} (f : X → option Y) x l :
  omap f (x :: l)
  = match f x with Some y => y :: omap f l | None => omap f l end.
Proof. reflexivity. Qed.

(** The loop appends the block of every index of the range that is the
    index of a page, and skips the others. *)
Lemma get_text_loop ocr_results indices : ∀ text,
  fold_left (get_text_step ocr_results) indices text
  = text +:+ concat_strings (text_block <$> omap (page_of ocr_results) indices).
Proof.
  induction indices as [|k indices IH]; intros text.
  - simpl. by rewrite string_app_nil_r.
  - rewrite omap_cons_match. simpl. rewrite IH.
    unfold get_text_step, page_of.
    destruct ((0 <=? k) && (k <? len ocr_results)); [|done].
    destruct (ocr_results !! Z.to_nat k) as [page_data|]; [|done].
    rewrite fmap_cons. unfold concat_strings. simpl.
    by rewrite string_app_assoc.
Qed.

(** The pages met on a range of indices are a slice of the page list. *)
Lemma pages_of_range ocr_results b : ∀ (n : nat) a,
  Z.to_nat (b - a) = n →
  omap (page_of ocr_results) (py_range a b)
  = take (Z.to_nat b - Z.to_nat (Z.max 0 a))
      (drop (Z.to_nat (Z.max 0 a)) ocr_results).
Proof.
  induction n as [|n IH]; intros a Hn.
  - rewrite py_range_nil by lia.
    by replace (Z.to_nat b - Z.to_nat (Z.max 0 a))%nat with 0%nat by lia.
  - rewrite py_range_cons, omap_cons_match by lia.
    rewrite (IH (a + 1)) by lia. unfold page_of, len.
    destruct (0 <=? a) eqn:H0; simpl.
    + replace (Z.to_nat (Z.max 0 (a + 1))) with (S (Z.to_nat a)) by lia.
      replace (Z.to_nat (Z.max 0 a)) with (Z.to_nat a) by lia.
      replace (Z.to_nat b - Z.to_nat a)%nat
        with (S (Z.to_nat b - S (Z.to_nat a))) by lia.
      destruct (ocr_results !! Z.to_nat a) as [page_data|] eqn:Hp.
      * apply lookup_lt_Some in Hp as Hlt.
        replace (a <? Z.of_nat (length ocr_results)) with true by lia.
        by rewrite (drop_S _ _ _ Hp).
      * apply lookup_ge_None in Hp as Hge.
        rewrite !drop_ge by lia. rewrite !take_nil.
        by destruct (a <? Z.of_nat (length ocr_results)).
    + replace (Z.to_nat (Z.max 0 (a + 1))) with 0%nat by lia.
      by replace (Z.to_nat (Z.max 0 a)) with 0%nat by lia.
Qed.

Lemma get_text_of_ocr_pages_blocks ocr_results start_page end_page :
  get_text_of_ocr_pages ocr_results start_page end_page
  = concat_strings (text_block <$> pages_between ocr_results start_page end_page).
Proof.
  unfold get_text_of_ocr_pages, pages_between.
  rewrite get_text_loop. simpl.
  by rewrite (pages_of_range _ _ _ _ eq_refl).
Qed.

(** X1: for any two integers, [get_text_of_ocr_pages] returns the text
    blocks (page text followed by a newline) of the pages whose 1-based
    number lies between [start_page] and [end_page], in page order; page
    numbers that do not exist are skipped and nothing is raised. *)
Theorem get_text_of_ocr_pages_slice ocr_results start_page end_page :
  get_text_of_ocr_pages ocr_results start_page end_page
  = concat_strings
      ((λ page_data, extract_text_from_ocr_page page_data +:+ Py.nl)
         <$> take (Z.to_nat end_page - Z.to_nat (Z.max 0 (start_page - 1)))
               (drop (Z.to_nat (Z.max 0 (start_page - 1))) ocr_results)).
Proof. apply get_text_of_ocr_pages_blocks. Qed.

(** X2: a range that ends before it starts, ends before page 1, or starts
    after the last page gives the empty string. *)
Theorem get_text_of_ocr_pages_empty ocr_results start_page end_page :
  end_page < start_page ∨ end_page < 1 ∨ len ocr_results < start_page →
  get_text_of_ocr_pages ocr_results start_page end_page = "".
Proof.
  intros H. rewrite get_text_of_ocr_pages_blocks. unfold pages_between, len in *.
  destruct (decide (len ocr_results < start_page)) as [Hlen|Hlen]; unfold len in *.
  - rewrite drop_ge by lia. by rewrite take_nil.
  - by replace (Z.to_nat end_page - Z.to_nat (Z.max 0 (start_page - 1)))%nat
      with 0%nat by lia.
Qed.

Lemma get_text_of_ocr_pages_empty_witness :
  get_text_of_ocr_pages
    [Page.mk (Some 0) (Some [LayoutItem.mk (Some "Title") None None])] 2 5 = "".
Proof.
  apply get_text_of_ocr_pages_empty. right. right. vm_compute. reflexivity.
Defined.

(** X3: reading a range in two steps gives the same text as reading it
    at once: for [start_page - 1 ≤ mid_page ≤ end_page], the text of
    [start_page .. end_page] is the text of [start_page .. mid_page]
    followed by the text of [mid_page + 1 .. end_page]. *)
Theorem get_text_of_ocr_pages_split ocr_results start_page mid_page end_page :
  start_page - 1 ≤ mid_page → mid_page ≤ end_page →
  get_text_of_ocr_pages ocr_results start_page end_page
  = get_text_of_ocr_pages ocr_results start_page mid_page
    +:+ get_text_of_ocr_pages ocr_results (mid_page + 1) end_page.
Proof.
  intros H1 H2. unfold get_text_of_ocr_pages.
  rewrite (py_range_app (start_page - 1) mid_page end_page) by lia.
  rewrite fold_left_app.
  replace (mid_page + 1 - 1) with mid_page by lia.
  rewrite (get_text_loop _ (py_range mid_page end_page)
             (fold_left _ _ _)).
  by rewrite (get_text_loop _ (py_range mid_page end_page) "").
Qed.

Lemma get_text_of_ocr_pages_split_witness :
  let pages :=
    [Page.mk (Some 0) (Some [LayoutItem.mk (Some "Title") None None]);
     Page.mk (Some 1) (Some [LayoutItem.mk (Some "Body") None None]);
     Page.mk (Some 2) (Some [LayoutItem.mk (Some "End") None None])] in
  get_text_of_ocr_pages pages 1 3
  = get_text_of_ocr_pages pages 1 1 +:+ get_text_of_ocr_pages pages (1 + 1) 3.
Proof.
  intros pages. apply (get_text_of_ocr_pages_split pages 1 1 3); lia.
Defined.

Lemma get_text_labels_loop ocr_results indices : ∀ text,
  fold_left (get_text_labels_step ocr_results) indices text
  = text +:+ concat_strings
               (omap (λ k, (λ page_data,
                              labelled_block k
                                (extract_text_from_ocr_page page_data))
                           <$> page_of ocr_results k) indices).
Proof.
  induction indices as [|k indices IH]; intros text.
  - simpl. by rewrite string_app_nil_r.
  - rewrite omap_cons_match. simpl. rewrite IH.
    unfold get_text_labels_step, page_of.
    destruct ((0 <=? k) && (k <? len ocr_results)); [|done].
    destruct (ocr_results !! Z.to_nat k) as [page_data|]; [|done].
    simpl. unfold concat_strings. simpl.
    by rewrite string_app_assoc.
Qed.

(** X4: for an existing page, the labelled text of that page alone is its
    text between two copies of the tag [<physical_index_N>], each followed
    by a newline, where N is the position of the page in the list plus 1,
    whatever the page's own ['page_no']. *)
Theorem get_text_with_labels_single ocr_results (i : nat) page_data :
  ocr_results !! i = Some page_data →
  get_text_of_ocr_pages_with_labels ocr_results
    (Z.of_nat i + 1) (Z.of_nat i + 1)
  = "<physical_index_" +:+ Py.str (Z.of_nat i + 1) +:+ ">" +:+ Py.nl
    +:+ extract_text_from_ocr_page page_data +:+ Py.nl
    +:+ "<physical_index_" +:+ Py.str (Z.of_nat i + 1) +:+ ">" +:+ Py.nl.
Proof.
  intros Hp. unfold get_text_of_ocr_pages_with_labels.
  replace (Z.of_nat i + 1 - 1) with (Z.of_nat i) by lia.
  rewrite py_range_cons, py_range_nil by lia.
  apply lookup_lt_Some in Hp as Hlt.
  simpl. unfold get_text_labels_step, len.
  replace ((0 <=? Z.of_nat i) && (Z.of_nat i <? Z.of_nat (length ocr_results)))
    with true by lia.
  by rewrite Nat2Z.id, Hp.
Qed.

Lemma get_text_with_labels_single_witness :
  get_text_of_ocr_pages_with_labels
    [Page.mk (Some 0) (Some [LayoutItem.mk (Some "Title") None None]);
     Page.mk (Some 41) (Some [LayoutItem.mk (Some "Body") None None])]
    (Z.of_nat 1 + 1) (Z.of_nat 1 + 1)
  = "<physical_index_" +:+ Py.str (Z.of_nat 1 + 1) +:+ ">" +:+ Py.nl
    +:+ extract_text_from_ocr_page
          (Page.mk (Some 41) (Some [LayoutItem.mk (Some "Body") None None]))
    +:+ Py.nl
    +:+ "<physical_index_" +:+ Py.str (Z.of_nat 1 + 1) +:+ ">" +:+ Py.nl.
Proof.
  apply (get_text_with_labels_single _ 1%nat). reflexivity.
Defined.

(** X5: the labelled text of a range is the labelled text of its first
    part followed by the labelled text of the rest, for every cut
    [start_page - 1 ≤ mid_page ≤ end_page]. *)
Theorem get_text_with_labels_split ocr_results start_page mid_page end_page :
  start_page - 1 ≤ mid_page → mid_page ≤ end_page →
  get_text_of_ocr_pages_with_labels ocr_results start_page end_page
  = get_text_of_ocr_pages_with_labels ocr_results start_page mid_page
    +:+ get_text_of_ocr_pages_with_labels ocr_results (mid_page + 1) end_page.
Proof.
  intros H1 H2. unfold get_text_of_ocr_pages_with_labels.
  rewrite (py_range_app (start_page - 1) mid_page end_page) by lia.
  rewrite fold_left_app.
  replace (mid_page + 1 - 1) with mid_page by lia.
  rewrite (get_text_labels_loop _ (py_range mid_page end_page)
             (fold_left _ _ _)).
  by rewrite (get_text_labels_loop _ (py_range mid_page end_page) "").
Qed.

Lemma get_text_with_labels_split_witness :
  let pages :=
    [Page.mk (Some 0) (Some [LayoutItem.mk (Some "Title") None None]);
     Page.mk (Some 1) (Some [LayoutItem.mk (Some "Body") None None])] in
  get_text_of_ocr_pages_with_labels pages 0 4
  = get_text_of_ocr_pages_with_labels pages 0 1
    +:+ get_text_of_ocr_pages_with_labels pages (1 + 1) 4.
Proof.
  intros pages. apply (get_text_with_labels_split pages 0 1 4); lia.
Defined.

(** X24: page numbers are 1-based and inclusive: for the page at 0-based
    position [i], the range from [i + 1] to [i + 1] gives the text of that
    page followed by one newline. *)
Theorem get_text_of_ocr_pages_single ocr_results (i : nat) page_data :
  ocr_results !! i = Some page_data →
  get_text_of_ocr_pages ocr_results (Z.of_nat i + 1) (Z.of_nat i + 1)
  = extract_text_from_ocr_page page_data +:+ Py.nl.
Proof.
  intros Hp. rewrite get_text_of_ocr_pages_blocks. unfold pages_between.
  replace (Z.to_nat (Z.max 0 (Z.of_nat i + 1 - 1))) with i by lia.
  replace (Z.to_nat (Z.of_nat i + 1) - i)%nat with 1%nat by lia.
  rewrite (drop_S _ _ _ Hp). simpl. unfold concat_strings. simpl.
  apply string_app_nil_r.
Qed.

Lemma get_text_of_ocr_pages_single_witness :
  get_text_of_ocr_pages
    [Page.mk (Some 0) (Some [LayoutItem.mk (Some "Title") None None]);
     Page.mk (Some 1) (Some [LayoutItem.mk (Some " Body ") None None;
                             LayoutItem.mk (Some "More") None None])]
    (Z.of_nat 1 + 1) (Z.of_nat 1 + 1)
  = extract_text_from_ocr_page
      (Page.mk (Some 1) (Some [LayoutItem.mk (Some " Body ") None None;
                               LayoutItem.mk (Some "More") None None]))
    +:+ Py.nl.
Proof.
  apply (get_text_of_ocr_pages_single _ 1%nat). reflexivity.
Defined.

(* ===================================================================== *)
(** ** Paged Token View: raw pages and delegation *)
(* ===================================================================== *)

Lemma get_ocr_data_nat (self : OCRPageListWrapper) (i : nat) :
  get_ocr_data self (Z.of_nat i) = ocr_results self !! i.
Proof.
  unfold get_ocr_data. rewrite Nat2Z.id.
  destruct (ocr_results self !! i) eqn:Hp.
  - apply lookup_lt_Some in Hp.
    by replace ((0 <=? Z.of_nat i)
                && (Z.of_nat i <? Z.of_nat (length (ocr_results self))))
      with true by lia.
  - by case_match.
Qed.

Lemma get_ocr_data_outside (self : OCRPageListWrapper) (page_index : Z) :
  page_index < 0 ∨ len (ocr_results self) ≤ page_index →
  get_ocr_data self page_index = None.
Proof.
  intros H. unfold get_ocr_data, len in *.
  by replace ((0 <=? page_index)
              && (page_index <? Z.of_nat (length (ocr_results self))))
    with false by lia.
Qed.

(** X6: [get_ocr_data] returns the page stored at a 0-based position and
    [None] for every index outside [0, len): a negative index does not
    count from the end, unlike indexed access to the pairs of the view. *)
Theorem get_ocr_data_spec (self : OCRPageListWrapper) :
  (∀ i : nat, get_ocr_data self (Z.of_nat i) = ocr_results self !! i)
  ∧ (∀ page_index : Z,
       page_index < 0 ∨ len (ocr_results self) ≤ page_index →
       get_ocr_data self page_index = None).
Proof.
  split; [apply get_ocr_data_nat | apply get_ocr_data_outside].
Qed.

Lemma get_ocr_data_spec_witness :
  let self :=
    mkWrapper [Page.mk (Some 0) None; Page.mk (Some 1) None]
      "gpt-4o-2024-11-20" [("", 0); ("", 0)] in
  get_ocr_data self (Z.of_nat 1) = Some (Page.mk (Some 1) None)
  ∧ get_ocr_data self (-1) = None
  ∧ wrapper_getitem self (-1) = Ok ("", 0).
Proof.
  intros self. destruct (get_ocr_data_spec self) as [Hin Hout].
  split; [apply Hin|]. split; [|reflexivity].
  apply Hout. left. lia.
Defined.

Section ViewProofs.
Context {Token : Type}.
Variable encoding_for_model : string → string → list Token.
Variable dict_truthy : Page.t → bool.

(** X7: in a view built from a page list, position [i] of the pairs and
    position [i] of the raw pages belong together: the pair holds the text
    of that very page and the number of tokens the tokenizer gives for
    that text. *)
Theorem view_pairs_aligned (pages : list Page.t) (model : string)
  (i : nat) (page_data : Page.t) :
  pages !! i = Some page_data →
  let view := create_ocr_page_list_wrapper encoding_for_model pages model in
  get_ocr_data view (Z.of_nat i) = Some page_data
  ∧ wrapper_getitem view (Z.of_nat i)
    = Ok (extract_text_from_ocr_page page_data,
          len (encoding_for_model model (extract_text_from_ocr_page page_data))).
Proof.
  intros Hp view. split.
  - by rewrite get_ocr_data_nat.
  - unfold wrapper_getitem, view. simpl.
    rewrite get_page_tokens_from_ocr_fmap. apply list_getitem_Ok.
    by rewrite list_lookup_fmap, Hp.
Qed.

(** X8: when a falsy page dictionary is one without keys,
    [find_text_bbox] is the fuzzy matcher run on the page at the given
    0-based position, and [None] for every index outside [0, len),
    negative ones included. *)
Theorem find_text_bbox_delegates (self : OCRPageListWrapper) (text : string) :
  truthy_keys dict_truthy →
  (∀ (i : nat) page_data,
     ocr_results self !! i = Some page_data →
     find_text_bbox dict_truthy self (Z.of_nat i) text
     = find_text_bbox_in_page page_data text true)
  ∧ (∀ page_index : Z,
       page_index < 0 ∨ len (ocr_results self) ≤ page_index →
       find_text_bbox dict_truthy self page_index text = None).
Proof.
  intros Hkeys. unfold find_text_bbox. split.
  - intros i page_data Hp. rewrite get_ocr_data_nat, Hp.
    destruct (dict_truthy page_data) eqn:Ht; [done|].
    destruct (Hkeys _ Ht) as [_ Hl].
    unfold find_text_bbox_in_page. by rewrite Hl.
  - intros page_index H. by rewrite get_ocr_data_outside.
Qed.

(** X9: when a falsy page dictionary is one without keys,
    [get_all_bboxes_for_page] returns, in order, the layout items of the
    page at the given position that have both a bbox and a text, and the
    empty list for every index outside [0, len). *)
Theorem get_all_bboxes_for_page_spec (self : OCRPageListWrapper) :
  truthy_keys dict_truthy →
  (∀ (i : nat) page_data,
     ocr_results self !! i = Some page_data →
     get_all_bboxes_for_page dict_truthy self (Z.of_nat i)
     = filter has_bbox_and_text (page_items page_data))
  ∧ (∀ page_index : Z,
       page_index < 0 ∨ len (ocr_results self) ≤ page_index →
       get_all_bboxes_for_page dict_truthy self page_index = []).
Proof.
  intros Hkeys. unfold get_all_bboxes_for_page. split.
  - intros i page_data Hp. rewrite get_ocr_data_nat, Hp. unfold page_items.
    destruct (dict_truthy page_data) eqn:Ht; simpl.
    + by destruct (Page.full_layout_info page_data).
    + destruct (Hkeys _ Ht) as [_ Hl]. by rewrite Hl.
  - intros page_index H. by rewrite get_ocr_data_outside.
Qed.

(** X10: a bbox that [find_text_bbox] returns for a page index is the
    bbox of one of the items [get_all_bboxes_for_page] lists for that
    index. *)
Theorem find_text_bbox_among_all (self : OCRPageListWrapper)
  (page_index : Z) (text : string) (b : Bbox) :
  find_text_bbox dict_truthy self page_index text = Some b →
  ∃ item, item ∈ get_all_bboxes_for_page dict_truthy self page_index
          ∧ LayoutItem.bbox item = Some b.
Proof.
  unfold find_text_bbox, get_all_bboxes_for_page.
  destruct (get_ocr_data self page_index) as [page_data|]; [|done].
  destruct (dict_truthy page_data); [|done]. simpl.
  unfold find_text_bbox_in_page.
  destruct (Page.full_layout_info page_data) as [items|]; [|done].
  destruct (scan_items_spec true text items)
    as [(pre & item & post & t & b' & -> & _ & Ht & Hb & _ & Hs)|[_ Hs]];
    rewrite Hs; intros [=]; subst.
  exists item. split; [|done].
  apply list_elem_of_filter. split.
  - split; by eexists.
  - apply elem_of_app. right. by left.
Qed.
End ViewProofs.

Lemma view_pairs_aligned_witness :
  let pages :=
    [Page.mk (Some 0) (Some [LayoutItem.mk (Some " Title ") None None]);
     Page.mk (Some 1) (Some [LayoutItem.mk (Some "Body text") None None])] in
  let view :=
    create_ocr_page_list_wrapper (λ _, Py.split) pages "gpt-4o-2024-11-20" in
  get_ocr_data view (Z.of_nat 1)
  = Some (Page.mk (Some 1) (Some [LayoutItem.mk (Some "Body text") None None]))
  ∧ wrapper_getitem view (Z.of_nat 1) = Ok ("Body text", 2).
Proof.
  intros pages view.
  apply (view_pairs_aligned (λ _, Py.split) pages "gpt-4o-2024-11-20" 1%nat).
  reflexivity.
Defined.

Lemma two_key_truthy_keys : truthy_keys two_key_truthy.
Proof. intros [[n|] [items|]] H; simpl in H; done. Qed.

Lemma find_text_bbox_delegates_witness :
  let page :=
    Page.mk (Some 0)
      (Some [LayoutItem.mk (Some "1 Introduction") (Some [10; 20; 300; 40])
               (Some "Section-header")]) in
  let self := mkWrapper [page] "gpt-4o-2024-11-20" [("1 Introduction", 2)] in
  find_text_bbox two_key_truthy self (Z.of_nat 0) "introduction"
  = find_text_bbox_in_page page "introduction" true
  ∧ find_text_bbox two_key_truthy self (-1) "introduction" = None.
Proof.
  intros page self.
  destruct (find_text_bbox_delegates two_key_truthy self "introduction"
              two_key_truthy_keys) as [Hin Hout].
  split.
  - apply Hin. reflexivity.
  - apply Hout. left. lia.
Defined.

Lemma get_all_bboxes_for_page_spec_witness :
  let page :=
    Page.mk (Some 0)
      (Some [LayoutItem.mk (Some "1 Introduction") (Some [10; 20; 300; 40])
               (Some "Section-header");
             LayoutItem.mk None (Some [10; 60; 300; 200]) (Some "Picture")]) in
  let self := mkWrapper [page] "gpt-4o-2024-11-20" [("1 Introduction", 2)] in
  get_all_bboxes_for_page two_key_truthy self (Z.of_nat 0)
  = filter has_bbox_and_text (page_items page)
  ∧ get_all_bboxes_for_page two_key_truthy self 1 = [].
Proof.
  intros page self.
  destruct (get_all_bboxes_for_page_spec two_key_truthy self
              two_key_truthy_keys) as [Hin Hout].
  split.
  - apply Hin. reflexivity.
  - apply Hout. right. vm_compute. discriminate.
Defined.

Lemma find_text_bbox_among_all_witness :
  let page :=
    Page.mk (Some 0)
      (Some [LayoutItem.mk (Some "1 Introduction") (Some [10; 20; 300; 40])
               (Some "Section-header")]) in
  let self := mkWrapper [page] "gpt-4o-2024-11-20" [("1 Introduction", 2)] in
  ∃ item, item ∈ get_all_bboxes_for_page two_key_truthy self 0
          ∧ LayoutItem.bbox item = Some [10; 20; 300; 40].
Proof.
  intros page self.
  apply (find_text_bbox_among_all two_key_truthy self 0 "introduction").
  reflexivity.
Defined.

(* ===================================================================== *)
(** ** Hierarchy Inferencer: positions, levels and numbering *)
(* ===================================================================== *)

Lemma header_level_range text :
  header_level text = 1 ∨ header_level text = 2
  ∨ header_level text = 3 ∨ header_level text = 4.
Proof. unfold header_level. repeat case_match; auto. Qed.

Lemma detect_loop_length headers :
  length (fold_left detect_step headers []) = length headers.
Proof. destruct (detect_loop_app headers []) as (new & -> & Hlen). done. Qed.

Lemma detect_lookup headers (i : nat) h :
  headers !! i = Some h →
  fold_left detect_step headers [] !! i
  = Some (toc_item_of (fold_left detect_step (take i headers) []) h).
Proof.
  intros Hh. pose proof (lookup_lt_Some _ _ _ Hh) as Hlt.
  rewrite <- (take_drop_middle headers i h Hh) at 1.
  rewrite <- (detect_loop_lookup (take i headers) h (drop (S i) headers)).
  f_equal. rewrite length_take. lia.
Qed.

(** X11: the Hierarchy Inferencer emits one node per header, at the same
    position; the node's title is the header text without its leading
    '#' run and surrounding white space, its level is read off the text,
    and its physical index, bbox and page number are those of the header.
    The structure flag is true exactly when there is at least one
    header. *)
Theorem detect_toc_positions (headers : list Header.t) :
  let result := detect_toc_from_headers headers in
  length (TocResult.toc_items result) = length headers
  ∧ (TocResult.has_structure result = true ↔ headers ≠ [])
  ∧ ∀ (i : nat) h, headers !! i = Some h →
      ∃ node, TocResult.toc_items result !! i = Some node
              ∧ TocItem.title node = Py.strip (Py.sub_heading (Header.text h))
              ∧ TocItem.level node = header_level (Header.text h)
              ∧ TocItem.physical_index node = Header.physical_index h
              ∧ TocItem.bbox node = Header.bbox h
              ∧ TocItem.page_no node = Header.page_no h.
Proof.
  simpl. split; [apply detect_loop_length|]. split.
  - unfold len. rewrite detect_loop_length.
    destruct headers; simpl; split; intros H; try done; lia.
  - intros i h Hh. eexists. split; [by apply detect_lookup|]. done.
Qed.

Lemma detect_toc_positions_witness :
  let headers :=
    [Header.mk 0 "# Intro" [10; 20; 300; 40] "Section-header" 1;
     Header.mk 3 "##  Scope " [10; 60; 300; 80] "Section-header" 4] in
  ∃ node,
    TocResult.toc_items (detect_toc_from_headers headers) !! 1%nat = Some node
    ∧ TocItem.title node = Py.strip (Py.sub_heading "##  Scope ")
    ∧ TocItem.level node = header_level "##  Scope "
    ∧ TocItem.physical_index node = 4
    ∧ TocItem.bbox node = [10; 60; 300; 80]
    ∧ TocItem.page_no node = 3.
Proof.
  intros headers.
  destruct (detect_toc_positions headers) as (_ & _ & H).
  apply (H 1%nat (Header.mk 3 "##  Scope " [10; 60; 300; 80] "Section-header" 4)).
  reflexivity.
Defined.

(** A property of every item the loop can emit holds for all items. *)
Lemma detect_loop_Forall (P : TocItem.t → Prop) headers :
  (∀ toc_items h, P (toc_item_of toc_items h)) →
  ∀ toc_items, Forall P toc_items →
               Forall P (fold_left detect_step headers toc_items).
Proof.
  intros HP. induction headers as [|h headers IH]; intros toc_items Hacc; simpl.
  - done.
  - apply IH. unfold detect_step. apply Forall_app. split; [done|].
    apply Forall_singleton, HP.
Qed.

(** X12: every node has a level between 1 and 4; its structure path is
    absent exactly when the level is 3 or 4; and only a level-2 node can
    carry a parent-section, which is then at least 1. *)
Theorem detect_toc_levels (headers : list Header.t) :
  Forall (λ node,
            1 ≤ TocItem.level node ≤ 4
            ∧ (TocItem.structure node = None ↔ 3 ≤ TocItem.level node)
            ∧ (∀ p, TocItem.parent_section node = Some p →
                    TocItem.level node = 2 ∧ 1 ≤ p))
    (TocResult.toc_items (detect_toc_from_headers headers)).
Proof.
  simpl. apply detect_loop_Forall; [|done].
  intros toc_items h. unfold toc_item_of. simpl.
  destruct (header_level_range (Header.text h)) as [-> | [-> | [-> | ->]]];
    simpl; (split; [lia|]); split; try (by split; [intros [=] | lia]);
    try (by split; [lia | intros _]); try (by intros p [=]).
  intros p. destruct (0 <? len (level1_items toc_items)) eqn:Hp; [|done].
  intros [= <-]. split; [done | lia].
Qed.

Lemma level1_items_snoc toc_items node :
  level1_items (toc_items ++ [node])
  = level1_items toc_items ++ (if decide (TocItem.level node = 1) then [node] else []).
Proof.
  unfold level1_items. rewrite filter_app, filter_cons. simpl.
  by destruct (decide (TocItem.level node = 1)).
Qed.

(** The level-1 items follow the level-1 headers. *)
Lemma level1_items_loop headers : ∀ toc_items,
  length (level1_items (fold_left detect_step headers toc_items))
  = (length (level1_items toc_items) + length (level1_headers headers))%nat.
Proof.
  unfold level1_headers.
  induction headers as [|h headers IH]; intros toc_items; simpl.
  - lia.
  - rewrite IH. unfold detect_step. rewrite level1_items_snoc, filter_cons.
    simpl. destruct (decide (header_level (Header.text h) = 1));
      rewrite length_app; simpl; lia.
Qed.

Lemma level1_structures_loop headers : ∀ toc_items,
  TocItem.structure <$> level1_items toc_items
    = (λ k : nat, Some (Py.str (Z.of_nat k + 1)))
        <$> seq 0 (length (level1_items toc_items)) →
  TocItem.structure <$> level1_items (fold_left detect_step headers toc_items)
    = (λ k : nat, Some (Py.str (Z.of_nat k + 1)))
        <$> seq 0 (length (level1_items (fold_left detect_step headers toc_items))).
Proof.
  induction headers as [|h headers IH]; intros toc_items Hacc; simpl; [done|].
  apply IH. unfold detect_step. rewrite level1_items_snoc.
  destruct (decide (TocItem.level (toc_item_of toc_items h) = 1)) as [Hl|Hl].
  - rewrite length_app, seq_app, !fmap_app, Hacc. simpl. f_equal.
    simpl in Hl. unfold toc_item_of. rewrite Hl. done.
  - by rewrite !app_nil_r.
Qed.

(** X13: the level-1 nodes (headers with one '#' or with none) are
    numbered 1, 2, 3, ... in order of appearance, whatever nodes of other
    levels stand between them, and there is one per level-1 header. *)
Theorem detect_toc_level1_numbering (headers : list Header.t) :
  TocItem.structure
    <$> level1_items (TocResult.toc_items (detect_toc_from_headers headers))
  = (λ k : nat, Some (Py.str (Z.of_nat k + 1)))
      <$> seq 0 (length (level1_headers headers)).
Proof.
  simpl. rewrite (level1_structures_loop headers []) by done.
  by rewrite level1_items_loop.
Qed.

Lemma parents_bounded_snoc toc_items h :
  parents_bounded toc_items →
  parents_bounded (toc_items ++ [toc_item_of toc_items h]).
Proof.
  unfold parents_bounded. intros Hb.
  assert (Hle : len (level1_items toc_items)
                ≤ len (level1_items (toc_items ++ [toc_item_of toc_items h]))).
  { rewrite level1_items_snoc. unfold len. rewrite length_app. lia. }
  apply Forall_app. split.
  - eapply Forall_impl; [exact Hb|]. intros node Hn p Hp.
    specialize (Hn p Hp). lia.
  - apply Forall_singleton. intros p. simpl.
    case_match; [|done]. intros [= <-]. done.
Qed.

Lemma parents_bounded_loop headers : ∀ toc_items,
  parents_bounded toc_items →
  parents_bounded (fold_left detect_step headers toc_items).
Proof.
  induction headers as [|h headers IH]; intros toc_items Hb; simpl; [done|].
  by apply IH, parents_bounded_snoc.
Qed.

Lemma filter_none {X} (P : X → Prop) `{∀ x, Decision (P x)} (l : list X) :
  Forall (λ x, ¬ P x) l → filter P l = [].
Proof.
  induction 1 as [|x l Hx _ IH]; [done|].
  by rewrite filter_cons, decide_False.
Qed.

(** Right after a level-1 header, nothing is recorded under its ordinal. *)
Lemma children_of_fresh toc_items h :
  parents_bounded toc_items →
  header_level (Header.text h) = 1 →
  children_of (len (level1_items toc_items) + 1)
    (toc_items ++ [toc_item_of toc_items h]) = [].
Proof.
  intros Hb Hl. unfold children_of. rewrite filter_app, filter_cons.
  rewrite decide_False by (simpl; rewrite Hl; by intros [? _]).
  rewrite app_nil_r. apply filter_none.
  eapply Forall_impl; [exact Hb|]. intros node Hn [_ Hp].
  specialize (Hn _ Hp). lia.
Qed.

(** Between two level-1 headers the number of level-1 items does not
    change, and every level-2 header adds one item under the current
    ordinal. *)
Lemma children_of_loop mid : ∀ toc_items,
  Forall (λ h, header_level (Header.text h) ≠ 1) mid →
  0 < len (level1_items toc_items) →
  level1_items (fold_left detect_step mid toc_items) = level1_items toc_items
  ∧ length (children_of (len (level1_items toc_items))
              (fold_left detect_step mid toc_items))
    = (length (children_of (len (level1_items toc_items)) toc_items)
       + length (level2_headers mid))%nat.
Proof.
  unfold level2_headers.
  induction mid as [|h mid IH]; intros toc_items Hmid Hpos; simpl.
  - split; [done | lia].
  - inversion Hmid as [|? ? Hh Hmid']; subst.
    assert (H1 : level1_items (detect_step toc_items h) = level1_items toc_items).
    { unfold detect_step. rewrite level1_items_snoc.
      rewrite decide_False by done. by rewrite app_nil_r. }
    destruct (IH (detect_step toc_items h) Hmid') as [IH1 IH2];
      [by rewrite H1|].
    rewrite H1 in IH1, IH2. split; [done|]. rewrite IH2.
    unfold detect_step at 1, children_of at 1.
    rewrite filter_app, length_app, !filter_cons. simpl.
    replace (0 <? len (level1_items toc_items)) with true by lia.
    destruct (decide (header_level (Header.text h) = 2)) as [H2|H2].
    + rewrite H2. simpl. rewrite decide_True by done. unfold children_of.
      simpl. lia.
    + rewrite decide_False by (by intros [? _]). unfold children_of.
      simpl. lia.
Qed.

(** X14: sub-section numbering restarts after every level-1 header.  A
    level-2 header that follows a level-1 header, with no other level-1
    header in between, gets the parent-section P and the structure path
    "P.k", where P is the number of level-1 headers up to there and k
    counts the level-2 headers since the last level-1 header, this one
    included; headers of level 3 and 4 in between are not counted. *)
Theorem detect_toc_level2_numbering (pre mid post : list Header.t)
  (h1 h2 : Header.t) :
  header_level (Header.text h1) = 1 →
  Forall (λ h, header_level (Header.text h) ≠ 1) mid →
  header_level (Header.text h2) = 2 →
  let P := len (level1_headers pre) + 1 in
  ∃ node,
    TocResult.toc_items
      (detect_toc_from_headers ((pre ++ h1 :: mid) ++ h2 :: post))
      !! length (pre ++ h1 :: mid) = Some node
    ∧ TocItem.parent_section node = Some P
    ∧ TocItem.structure node
      = Some (Py.str P +:+ "." +:+ Py.str (len (level2_headers mid) + 1)).
Proof.
  intros Hh1 Hmid Hh2 P. eexists. split.
  - simpl. apply detect_loop_lookup.
  - rewrite fold_left_app. simpl.
    set (acc0 := fold_left detect_step pre []).
    assert (Hb : parents_bounded acc0)
      by (apply parents_bounded_loop; by constructor).
    assert (HP : len (level1_items (detect_step acc0 h1)) = P).
    { unfold detect_step. rewrite level1_items_snoc. simpl.
      rewrite Hh1. simpl. unfold len, P, acc0.
      rewrite length_app, level1_items_loop. simpl. unfold len. lia. }
    destruct (children_of_loop mid (detect_step acc0 h1) Hmid) as [E1 E2].
    { rewrite HP. unfold P, len. lia. }
    rewrite HP in E2. unfold detect_step at 3 in E2.
    assert (HP' : P = len (level1_items acc0) + 1).
    { rewrite <- HP. unfold detect_step. rewrite level1_items_snoc. simpl.
      rewrite Hh1. simpl. unfold len. rewrite length_app. simpl. lia. }
    rewrite HP' in E2 at 2.
    rewrite (children_of_fresh acc0 h1 Hb Hh1) in E2. simpl in E2.
    unfold toc_item_of. rewrite Hh2. simpl. rewrite E1, HP.
    fold (children_of P (fold_left detect_step mid (detect_step acc0 h1))).
    assert (HposP : 0 < P) by (unfold P, len; lia).
    destruct (Z.ltb_spec 0 P) as [_|?]; [|lia].
    unfold len at 1. rewrite E2. done.
Qed.

Lemma detect_toc_level2_numbering_witness :
  let pre := [Header.mk 0 "# One" [1; 1; 9; 2] "Section-header" 1;
              Header.mk 0 "## One a" [1; 3; 9; 4] "Section-header" 1] in
  let h1 := Header.mk 1 "Two" [1; 1; 9; 2] "Section-header" 2 in
  let mid := [Header.mk 1 "## Two a" [1; 3; 9; 4] "Section-header" 2;
              Header.mk 1 "### Two a i" [1; 5; 9; 6] "Section-header" 2] in
  let h2 := Header.mk 2 "## Two b" [1; 1; 9; 2] "Section-header" 3 in
  ∃ node,
    TocResult.toc_items
      (detect_toc_from_headers ((pre ++ h1 :: mid) ++ h2 :: []))
      !! length (pre ++ h1 :: mid) = Some node
    ∧ TocItem.parent_section node = Some (len (level1_headers pre) + 1)
    ∧ TocItem.structure node
      = Some (Py.str (len (level1_headers pre) + 1) +:+ "."
              +:+ Py.str (len (level2_headers mid) + 1)).
Proof.
  intros pre h1 mid h2.
  apply (detect_toc_level2_numbering pre mid [] h1 h2).
  - reflexivity.
  - repeat constructor; vm_compute; discriminate.
  - reflexivity.
Defined.

(* ===================================================================== *)
(** ** Fuzzy Anchor Matcher: the two modes and the cleaned text *)
(* ===================================================================== *)

Lemma startswith_refl s : Py.startswith s s = true.
Proof. induction s as [|c s IH]; simpl; [done|]. by rewrite Ascii.eqb_refl. Qed.

Lemma contains_refl s : Py.contains s s = true.
Proof. destruct s; simpl; [done|]. by rewrite Ascii.eqb_refl, startswith_refl. Qed.

Lemma contains_empty s : Py.contains "" s = true.
Proof. by destruct s. Qed.

Lemma scan_items_exact_fuzzy search_text_clean items b :
  scan_items false search_text_clean items = Some b →
  ∃ b', scan_items true search_text_clean items = Some b'.
Proof.
  induction items as [|item items IH]; simpl; [done|].
  destruct (LayoutItem.text item) as [t|]; [|done].
  destruct (LayoutItem.bbox item) as [b0|]; [|done].
  destruct (Py.contains search_text_clean (clean t)
            || Py.contains (clean t) search_text_clean
            || word_overlap search_text_clean (clean t)) eqn:Hf; [by eauto|].
  destruct (String.eqb search_text_clean (clean t)) eqn:He; [|done].
  apply String.eqb_eq in He. rewrite <- He, contains_refl in Hf. done.
Qed.

(** X15: fuzzy mode finds something whenever exact mode does: if the
    exact search returns a bbox for a query on a page, the fuzzy search
    for the same query on the same page returns a bbox too. *)
Theorem exact_hit_gives_fuzzy_hit page_data search_text b :
  find_text_bbox_in_page page_data search_text false = Some b →
  ∃ b', find_text_bbox_in_page page_data search_text true = Some b'.
Proof.
  unfold find_text_bbox_in_page.
  destruct (Page.full_layout_info page_data); [|done].
  apply scan_items_exact_fuzzy.
Qed.

Lemma exact_hit_gives_fuzzy_hit_witness :
  ∃ b',
    find_text_bbox_in_page
      (Page.mk (Some 0)
         (Some [LayoutItem.mk (Some "Annex") (Some [1; 2; 3; 4]) None;
                LayoutItem.mk (Some "Annex A  Tables") (Some [5; 6; 7; 8]) None]))
      "annex a tables" true = Some b'.
Proof.
  apply (exact_hit_gives_fuzzy_hit _ _ [5; 6; 7; 8]). reflexivity.
Defined.

Lemma scan_items_blank items :
  scan_items true "" items = head (omap boxed items).
Proof.
  induction items as [|item items IH]; simpl; [done|].
  unfold boxed at 1.
  destruct (LayoutItem.text item) as [t|]; [|done].
  destruct (LayoutItem.bbox item) as [b|]; [|done].
  by rewrite contains_empty.
Qed.

(** X16: a query that is empty once cleaned (an empty or white-space-only
    title) matches any text in fuzzy mode: the matcher returns the bbox of
    the first layout item that has a text and a bbox, whatever that text
    is, and [None] only when the page has no such item. *)
Theorem find_text_bbox_blank_query page_data search_text :
  clean search_text = "" →
  find_text_bbox_in_page page_data search_text true
  = head (omap boxed (page_items page_data)).
Proof.
  intros Hc. unfold find_text_bbox_in_page, page_items.
  destruct (Page.full_layout_info page_data); [|done].
  rewrite Hc. apply scan_items_blank.
Qed.

Lemma find_text_bbox_blank_query_witness :
  find_text_bbox_in_page
    (Page.mk (Some 0)
       (Some [LayoutItem.mk (Some "12") None (Some "Page-footer");
              LayoutItem.mk (Some "Unrelated caption") (Some [5; 6; 7; 8]) None]))
    "   " true
  = Some [5; 6; 7; 8].
Proof.
  rewrite find_text_bbox_blank_query; reflexivity.
Defined.

Lemma isspace_lower_char c : Py.isspace (Py.lower_char c) = Py.isspace c.
Proof. destruct c as [[] [] [] [] [] [] [] []]; reflexivity. Qed.

Lemma lower_char_idem c : Py.lower_char (Py.lower_char c) = Py.lower_char c.
Proof. destruct c as [[] [] [] [] [] [] [] []]; reflexivity. Qed.

Lemma lower_idem s : Py.lower (Py.lower s) = Py.lower s.
Proof. induction s as [|c s IH]; simpl; [done|]. by rewrite lower_char_idem, IH. Qed.

Lemma lower_lstrip s : Py.lower (Py.lstrip s) = Py.lstrip (Py.lower s).
Proof.
  induction s as [|c s IH]; simpl; [done|].
  rewrite isspace_lower_char. by destruct (Py.isspace c).
Qed.

Lemma lower_rstrip s : Py.lower (Py.rstrip s) = Py.rstrip (Py.lower s).
Proof.
  induction s as [|c s IH]; simpl; [done|].
  rewrite <- IH, isspace_lower_char.
  destruct (Py.rstrip s); simpl; [|done]. by destruct (Py.isspace c).
Qed.

Lemma lower_collapse s : ∀ b,
  Py.lower (Py.collapse_from b s) = Py.collapse_from b (Py.lower s).
Proof.
  induction s as [|c s IH]; intros b; simpl; [done|].
  rewrite isspace_lower_char.
  destruct (Py.isspace c); [destruct b|]; simpl; by rewrite IH.
Qed.

Lemma collapse_idem s : ∀ b,
  Py.collapse_from b (Py.collapse_from b s) = Py.collapse_from b s.
Proof.
  induction s as [|c s IH]; intros b; simpl; [done|].
  destruct (Py.isspace c) eqn:Hc; [destruct b|]; simpl.
  - apply IH.
  - by rewrite IH.
  - by rewrite Hc, IH.
Qed.

Lemma lstrip_starts_nonspace s : starts_nonspace (Py.lstrip s).
Proof.
  induction s as [|c s IH]; simpl; [done|].
  by destruct (Py.isspace c) eqn:Hc.
Qed.

Lemma lstrip_fixed s : starts_nonspace s → Py.lstrip s = s.
Proof. destruct s as [|c s]; simpl; [done|]. by intros ->. Qed.

Lemma rstrip_starts_nonspace s : starts_nonspace s → starts_nonspace (Py.rstrip s).
Proof.
  destruct s as [|c s]; simpl; [done|]. intros Hc.
  destruct (Py.rstrip s); simpl; [by rewrite Hc | done].
Qed.

Lemma rstrip_idem s : Py.rstrip (Py.rstrip s) = Py.rstrip s.
Proof.
  induction s as [|c s IH]; simpl; [done|].
  destruct (Py.rstrip s) as [|a r] eqn:Hr.
  - destruct (Py.isspace c) eqn:Hc; simpl; [done|]. by rewrite Hc.
  - change (Py.rstrip (String c (String a r)))
      with (match Py.rstrip (String a r) with
            | "" => if Py.isspace c then "" else String c ""
            | r' => String c r'
            end).
    by rewrite IH.
Qed.

Lemma strip_idem s : Py.strip (Py.strip s) = Py.strip s.
Proof.
  unfold Py.strip.
  rewrite (lstrip_fixed (Py.rstrip (Py.lstrip s)))
    by apply rstrip_starts_nonspace, lstrip_starts_nonspace.
  apply rstrip_idem.
Qed.

Lemma collapse_starts_nonspace s b :
  starts_nonspace s → starts_nonspace (Py.collapse_from b s).
Proof. destruct s as [|c s]; simpl; [done|]. intros Hc. by rewrite Hc. Qed.

Lemma collapse_nonempty s : ∀ b,
  Py.rstrip s = s → s ≠ "" → Py.collapse_from b s ≠ "".
Proof.
  induction s as [|c s IH]; intros b Hr Hne; [done|]. simpl in *.
  destruct (Py.isspace c) eqn:Hc; [|done].
  destruct (Py.rstrip s) as [|a r] eqn:Hs; [done|].
  destruct b; [|done].
  apply IH; [congruence | intros ->; discriminate].
Qed.

Lemma rstrip_collapse s : ∀ b,
  Py.rstrip s = s → Py.rstrip (Py.collapse_from b s) = Py.collapse_from b s.
Proof.
  induction s as [|c s IH]; intros b Hr; [done|].
  assert (Hs : s = "" ∧ Py.isspace c = false ∨ Py.rstrip s = s ∧ s ≠ "").
  { simpl in Hr. destruct (Py.rstrip s) as [|a r] eqn:Hs.
    - left. destruct (Py.isspace c); [done|]. by injection Hr as <-.
    - right. injection Hr as <-. done. }
  destruct Hs as [[-> Hc] | [Hs Hne]].
  - simpl. rewrite Hc. simpl. by rewrite Hc.
  - simpl. destruct (Py.isspace c) eqn:Hc; [destruct b|].
    + by apply IH.
    + pose proof (collapse_nonempty s true Hs Hne) as Hx.
      pose proof (IH true Hs) as Hi.
      destruct (Py.collapse_from true s) as [|a r] eqn:Hcs; [done|].
      change (Py.rstrip (String " " (String a r)))
        with (match Py.rstrip (String a r) with
              | "" => if Py.isspace " " then "" else String " " ""
              | r' => String " " r'
              end).
      by rewrite Hi.
    + pose proof (IH false Hs) as Hi.
      destruct (Py.collapse_from false s) as [|a r] eqn:Hcs.
      * simpl. by rewrite Hc.
      * change (Py.rstrip (String c (String a r)))
          with (match Py.rstrip (String a r) with
                | "" => if Py.isspace c then "" else String c ""
                | r' => String c r'
                end).
        by rewrite Hi.
Qed.

Lemma clean_lower s : Py.lower (clean s) = clean s.
Proof.
  unfold clean, Py.sub_spaces, Py.strip.
  by rewrite lower_collapse, lower_rstrip, lower_lstrip, lower_idem.
Qed.

Lemma clean_strip s : Py.strip (clean s) = clean s.
Proof.
  unfold clean, Py.sub_spaces.
  set (y := Py.strip (Py.lower s)).
  assert (Hy1 : starts_nonspace y)
    by apply rstrip_starts_nonspace, lstrip_starts_nonspace.
  assert (Hy2 : Py.rstrip y = y) by apply rstrip_idem.
  unfold Py.strip at 1.
  rewrite lstrip_fixed by by apply collapse_starts_nonspace.
  by apply rstrip_collapse.
Qed.

Lemma clean_sub_spaces s : Py.sub_spaces (clean s) = clean s.
Proof. unfold clean, Py.sub_spaces. apply collapse_idem. Qed.

(** X17: cleaned text is in normal form: lower-casing it, trimming it or
    collapsing its white space changes nothing, so cleaning is idempotent,
    and searching for the cleaned query gives the same result as searching
    for the query itself, in both modes. *)
Theorem clean_normal_form (s : string) :
  Py.lower (clean s) = clean s
  ∧ Py.strip (clean s) = clean s
  ∧ Py.sub_spaces (clean s) = clean s
  ∧ clean (clean s) = clean s
  ∧ ∀ page_data fuzzy_match,
      find_text_bbox_in_page page_data (clean s) fuzzy_match
      = find_text_bbox_in_page page_data s fuzzy_match.
Proof.
  assert (Hc : clean (clean s) = clean s).
  { unfold clean at 1. by rewrite clean_lower, clean_strip, clean_sub_spaces. }
  split; [apply clean_lower|]. split; [apply clean_strip|].
  split; [apply clean_sub_spaces|]. split; [done|].
  intros page_data fuzzy_match. unfold find_text_bbox_in_page. by rewrite Hc.
Qed.

(* ===================================================================== *)
(** ** Page text, header records and the header-to-TOC pipeline *)
(* ===================================================================== *)

Lemma extract_text_join page_data :
  extract_text_from_ocr_page page_data
  = Py.join Py.nl (trimmed_texts (page_items page_data)).
Proof.
  unfold extract_text_from_ocr_page, page_items.
  destruct (Page.full_layout_info page_data) as [items|]; simpl; [|done].
  by rewrite extract_text_loop.
Qed.

Lemma join_nonempty sep x l : x ≠ "" → Py.join sep (x :: l) ≠ "".
Proof.
  intros Hx. unfold Py.join. destruct x as [|c x]; [done|].
  destruct l; simpl; done.
Qed.

(** X18: the Page Text Extractor returns the empty string exactly when no
    layout item of the page has a text with a character that is not
    white space. *)
Theorem extract_text_empty_iff (page_data : Page.t) :
  extract_text_from_ocr_page page_data = ""
  ↔ ∀ item t, item ∈ page_items page_data →
              LayoutItem.text item = Some t → Py.strip t = "".
Proof.
  rewrite extract_text_join. unfold trimmed_texts. split.
  - intros Hj item t Hin Ht.
    destruct (decide (Py.strip t = "")) as [|Hne]; [done|]. exfalso.
    assert (Hel : Py.strip t
                  ∈ filter (λ s, s ≠ "")
                      (Py.strip <$> omap LayoutItem.text (page_items page_data))).
    { apply list_elem_of_filter. split; [done|].
      apply list_elem_of_fmap. exists t. split; [done|].
      apply list_elem_of_omap. by exists item. }
    destruct (filter _ _) as [|x l] eqn:Hf; [by apply elem_of_nil in Hel|].
    assert (Hx : x ∈ filter (λ s, s ≠ "")
                   (Py.strip <$> omap LayoutItem.text (page_items page_data)))
      by (rewrite Hf; by left).
    apply list_elem_of_filter in Hx as [Hx _].
    by apply (join_nonempty Py.nl x l).
  - intros Hall. rewrite filter_none; [done|].
    apply Forall_forall. intros s Hs Hne. apply Hne.
    apply list_elem_of_fmap in Hs as (t & -> & Ht).
    apply list_elem_of_omap in Ht as (item & Hin & Ht). by eapply Hall.
Qed.

Lemma headers_bind ocr_results :
  extract_section_headers_with_bbox ocr_results
  = (ocr_results ≫= λ page_data,
       header_record page_data
         <$> filter is_section_header (page_items page_data)).
Proof. unfold extract_section_headers_with_bbox. by rewrite headers_page_loop. Qed.

Lemma headers_length ocr_results :
  (length (extract_section_headers_with_bbox ocr_results)
   ≤ length (ocr_results ≫= page_items))%nat.
Proof.
  rewrite headers_bind.
  induction ocr_results as [|page_data pages IH]; [done|].
  rewrite !bind_cons, !length_app, length_fmap.
  pose proof (length_filter is_section_header (page_items page_data)). lia.
Qed.

(** X19: the Header Locator returns at most as many records as there are
    layout items on all pages together, the text of every record is
    trimmed (no white space at either end), and the records of a page
    list are those of its first part followed by those of the rest. *)
Theorem extract_section_headers_shape (pages1 pages2 : list Page.t) :
  (length (extract_section_headers_with_bbox (pages1 ++ pages2))
   ≤ length ((pages1 ++ pages2) ≫= page_items))%nat
  ∧ Forall (λ h, Py.strip (Header.text h) = Header.text h)
      (extract_section_headers_with_bbox (pages1 ++ pages2))
  ∧ extract_section_headers_with_bbox (pages1 ++ pages2)
    = extract_section_headers_with_bbox pages1
      ++ extract_section_headers_with_bbox pages2.
Proof.
  split; [apply headers_length|]. split.
  - rewrite headers_bind. apply Forall_forall. intros h Hh.
    apply list_elem_of_bind in Hh as (page_data & Hh & _).
    apply list_elem_of_fmap in Hh as (item & -> & _).
    simpl. apply strip_idem.
  - by rewrite !headers_bind, bind_app.
Qed.

Lemma detect_loop_Forall_from (Q : Header.t → Prop) (P : TocItem.t → Prop)
  headers :
  (∀ toc_items h, Q h → P (toc_item_of toc_items h)) →
  Forall Q headers →
  ∀ toc_items, Forall P toc_items →
               Forall P (fold_left detect_step headers toc_items).
Proof.
  intros HP. induction 1 as [|h headers Hh _ IH]; intros toc_items Hacc; simpl.
  - done.
  - apply IH. unfold detect_step. apply Forall_app. split; [done|].
    by apply Forall_singleton, HP.
Qed.

(** X20: when the output of the Header Locator is given to the Hierarchy
    Inferencer, there is one TOC node per located header, every node has
    a physical index equal to its page number plus 1, and every title is
    trimmed. *)
Theorem headers_to_toc_pipeline (ocr_results : list Page.t) :
  let headers := extract_section_headers_with_bbox ocr_results in
  let toc_items := TocResult.toc_items (detect_toc_from_headers headers) in
  length toc_items = length headers
  ∧ Forall (λ node,
              TocItem.physical_index node = TocItem.page_no node + 1
              ∧ Py.strip (TocItem.title node) = TocItem.title node)
      toc_items.
Proof.
  simpl. split; [apply detect_loop_length|].
  apply (detect_loop_Forall_from
           (λ h, Header.physical_index h = Header.page_no h + 1)); [| |done].
  - intros toc_items h Hh. simpl. split; [done | apply strip_idem].
  - rewrite headers_bind. apply Forall_forall. intros h Hh.
    apply list_elem_of_bind in Hh as (page_data & Hh & _).
    by apply list_elem_of_fmap in Hh as (item & -> & _).
Qed.

(* ===================================================================== *)
(** ** TOC Anchoring Service: edge cases, frame and repetition *)
(* ===================================================================== *)

Lemma enhanced_entry_idem {A} ocr_results (d : TocEntry.t A) :
  enhanced_entry ocr_results (enhanced_entry ocr_results d)
  = enhanced_entry ocr_results d.
Proof.
  unfold enhanced_entry.
  destruct (TocEntry.physical_index d) as [physical_index|] eqn:Hpi;
    [|by rewrite Hpi].
  destruct (TocEntry.title d) as [title|] eqn:Ht; [|by rewrite Hpi, Ht].
  destruct (page_at ocr_results physical_index) as [page_data|] eqn:Hp;
    [|by rewrite Hpi, Ht, Hp].
  destruct (find_text_bbox_in_page page_data title true) as [[|x xs]|] eqn:Hf;
    simpl; rewrite ?Hpi, ?Ht, Hp, Hf; done.
Qed.

Lemma enhanced_entry_keys {A} ocr_results (d : TocEntry.t A) :
  TocEntry.physical_index (enhanced_entry ocr_results d)
    = TocEntry.physical_index d
  ∧ TocEntry.title (enhanced_entry ocr_results d) = TocEntry.title d
  ∧ TocEntry.rest (enhanced_entry ocr_results d) = TocEntry.rest d
  ∧ (enhanced_entry ocr_results d = d
     ∨ is_Some (TocEntry.bbox (enhanced_entry ocr_results d))
       ∧ is_Some (TocEntry.page_no (enhanced_entry ocr_results d))).
Proof.
  unfold enhanced_entry.
  destruct (TocEntry.physical_index d) as [physical_index|] eqn:Hpi; [|by auto].
  destruct (TocEntry.title d) as [title|] eqn:Ht; [|by auto].
  destruct (page_at ocr_results physical_index) as [page_data|]; [|by auto].
  destruct (find_text_bbox_in_page page_data title true) as [[|x xs]|];
    simpl; auto 10.
Qed.

Section StoreMore.
Context {A : Type}.
Implicit Types (s : store A) (d : TocEntry.t A).

(** The run, with the position of every new entry. *)
Lemma enhance_outputs ocr_results s toc_items locs ds :
  s !! toc_items = Some (OList locs) →
  Forall2 (λ l d, s !! l = Some (ODict d)) locs ds →
  ∃ s',
    enhance_toc_with_bbox toc_items ocr_results s = Done (length s) s'
    ∧ s' !! length s = Some (OList (seq (S (length s)) (length locs)))
    ∧ length s' = (S (length s) + length locs)%nat
    ∧ (∀ l o, s !! l = Some o → s' !! l = Some o)
    ∧ Forall2 (λ out d, s' !! out = Some (ODict (enhanced_entry ocr_results d)))
        (seq (S (length s)) (length locs)) ds.
Proof.
  intros Hlist Hlocs. pose proof (Forall2_length _ _ _ Hlocs) as Hlen.
  eexists. split; [by eapply enhance_toc_with_bbox_run|].
  split; [by apply list_lookup_middle|]. split; [|split].
  - rewrite length_app. simpl. rewrite length_fmap. lia.
  - intros l o Hl. rewrite lookup_app_l; [done|by eapply lookup_lt_Some].
  - apply Forall2_same_length_lookup_2.
    + by rewrite length_seq.
    + intros i out d Hout Hd. apply lookup_seq in Hout as [-> Hi].
      rewrite lookup_app_r by lia.
      replace (S (length s) + i - length s)%nat with (S i) by lia.
      simpl. by rewrite list_lookup_fmap, Hd.
Qed.

(** X21: the truth test [if bbox:] leaves an entry as it is when the
    matched layout item carries an empty bbox list: the copy returned for
    such an entry equals the input entry, as for an entry without match. *)
Theorem enhance_toc_empty_bbox ocr_results s toc_items locs ds :
  s !! toc_items = Some (OList locs) →
  Forall2 (λ l d, s !! l = Some (ODict d)) locs ds →
  ∃ enhanced_items s' outs,
    enhance_toc_with_bbox toc_items ocr_results s = Done enhanced_items s'
    ∧ s' !! enhanced_items = Some (OList outs)
    ∧ Forall2 (λ out d,
                 ∀ physical_index title page_data,
                   TocEntry.physical_index d = Some physical_index →
                   TocEntry.title d = Some title →
                   page_at ocr_results physical_index = Some page_data →
                   find_text_bbox_in_page page_data title true = Some [] →
                   s' !! out = Some (ODict d))
        outs ds.
Proof.
  intros Hlist Hlocs.
  destruct (enhance_outputs ocr_results _ _ _ _ Hlist Hlocs)
    as (s' & Hrun & He & _ & _ & Houts).
  exists (length s), s', (seq (S (length s)) (length locs)).
  split; [done|]. split; [done|].
  eapply Forall2_impl; [exact Houts|]. simpl.
  intros out d Hout physical_index title page_data Hpi Ht Hp Hf.
  rewrite Hout. unfold enhanced_entry. by rewrite Hpi, Ht, Hp, Hf.
Qed.

(** X22: the call returns as many entries as it was given, each in a
    new object of its own: no two returned entries share an object, none
    of them existed in the store the call started from, and that store is
    unchanged; a returned entry has the physical index, the title and
    every other key of its input entry unchanged, and either equals the
    input entry or carries both a bbox and a page number. *)
Theorem enhance_toc_keys_kept ocr_results s toc_items locs ds :
  s !! toc_items = Some (OList locs) →
  Forall2 (λ l d, s !! l = Some (ODict d)) locs ds →
  ∃ enhanced_items s' outs,
    enhance_toc_with_bbox toc_items ocr_results s = Done enhanced_items s'
    ∧ s !! enhanced_items = None
    ∧ s' !! enhanced_items = Some (OList outs)
    ∧ (∀ l o, s !! l = Some o → s' !! l = Some o)
    ∧ length outs = length locs
    ∧ NoDup outs
    ∧ Forall2 (λ out d,
                 s !! out = None
                 ∧ out ≠ enhanced_items
                 ∧ (out ∉ locs)
                 ∧ ∃ d', s' !! out = Some (ODict d')
                         ∧ TocEntry.physical_index d' = TocEntry.physical_index d
                         ∧ TocEntry.title d' = TocEntry.title d
                         ∧ TocEntry.rest d' = TocEntry.rest d
                         ∧ (d' = d ∨ is_Some (TocEntry.bbox d')
                                     ∧ is_Some (TocEntry.page_no d')))
        outs ds.
Proof.
  intros Hlist Hlocs.
  destruct (enhance_outputs ocr_results _ _ _ _ Hlist Hlocs)
    as (s' & Hrun & He & _ & Hkeep & Houts).
  exists (length s), s', (seq (S (length s)) (length locs)).
  split; [done|]. split; [by apply lookup_ge_None|].
  split; [done|]. split; [done|]. split; [by rewrite length_seq|].
  split; [apply NoDup_seq|].
  apply Forall2_same_length_lookup_2; [by eapply Forall2_length|].
  intros i out d Hout Hd.
  pose proof (Forall2_lookup_lr _ _ _ _ _ _ Houts Hout Hd) as Hs'.
  apply lookup_seq in Hout as [-> Hi].
  assert (Hnew : s !! (S (length s) + i)%nat = None)
    by (apply lookup_ge_None; lia).
  split; [done|]. split; [lia|]. split.
  - intros Hin. apply list_elem_of_lookup in Hin as [j Hj].
    destruct (Forall2_lookup_l _ _ _ _ _ Hlocs Hj) as (d0 & _ & Hd0).
    by rewrite Hnew in Hd0.
  - eexists. split; [exact Hs'|]. apply enhanced_entry_keys.
Qed.

(** X23: anchoring is idempotent: calling the service again on the list it
    returned, with the same pages, returns entries equal to those of the
    first call, one by one. *)
Theorem enhance_toc_twice ocr_results s toc_items locs ds :
  s !! toc_items = Some (OList locs) →
  Forall2 (λ l d, s !! l = Some (ODict d)) locs ds →
  ∃ first s1 outs1 second s2 outs2,
    enhance_toc_with_bbox toc_items ocr_results s = Done first s1
    ∧ s1 !! first = Some (OList outs1)
    ∧ enhance_toc_with_bbox first ocr_results s1 = Done second s2
    ∧ s2 !! second = Some (OList outs2)
    ∧ Forall2 (λ out1 out2,
                 ∃ d', s2 !! out1 = Some (ODict d')
                       ∧ s2 !! out2 = Some (ODict d'))
        outs1 outs2.
Proof.
  intros Hlist Hlocs. pose proof (Forall2_length _ _ _ Hlocs) as Hlen.
  destruct (enhance_outputs ocr_results _ _ _ _ Hlist Hlocs)
    as (s1 & Hrun1 & He1 & Hlen1 & _ & Houts1).
  assert (Houts1' :
    Forall2 (λ l d, s1 !! l = Some (ODict d))
      (seq (S (length s)) (length locs)) (enhanced_entry ocr_results <$> ds)).
  { apply Forall2_fmap_r. eapply Forall2_impl; [exact Houts1|]. done. }
  destruct (enhance_outputs ocr_results _ _ _ _ He1 Houts1')
    as (s2 & Hrun2 & He2 & _ & Hkeep & Houts2).
  rewrite length_seq in He2, Houts2.
  exists (length s), s1, (seq (S (length s)) (length locs)).
  exists (length s1), s2, (seq (S (length s1)) (length locs)).
  split; [done|]. split; [done|]. split; [done|]. split; [done|].
  apply Forall2_same_length_lookup_2; [by rewrite !length_seq|].
  intros i out1 out2 H1 H2.
  apply lookup_seq in H1 as H1'. destruct H1' as [-> Hi].
  destruct (lookup_lt_is_Some_2 ds i) as [d Hd]; [lia|].
  exists (enhanced_entry ocr_results d). split.
  - apply Hkeep. by eapply Forall2_lookup_lr in Houts1.
  - assert (Hd' : (enhanced_entry ocr_results <$> ds) !! i
                  = Some (enhanced_entry ocr_results d))
      by (by rewrite list_lookup_fmap, Hd).
    pose proof (Forall2_lookup_lr _ _ _ _ _ _ Houts2 H2 Hd') as Hs2.
    simpl in Hs2. by rewrite enhanced_entry_idem in Hs2.
Qed.
End StoreMore.

Lemma enhance_toc_empty_bbox_witness :
  let ocr_results :=
    [Page.mk (Some 0)
       (Some [LayoutItem.mk (Some "Introduction") (Some []) None])] in
  let d := TocEntry.mk (Some 1) (Some "Introduction") None None "1" in
  let s := [ODict d; OList [0%nat]] in
  ∃ enhanced_items s' outs,
    enhance_toc_with_bbox 1%nat ocr_results s = Done enhanced_items s'
    ∧ s' !! enhanced_items = Some (OList outs)
    ∧ Forall2 (λ out d,
                 ∀ physical_index title page_data,
                   TocEntry.physical_index d = Some physical_index →
                   TocEntry.title d = Some title →
                   page_at ocr_results physical_index = Some page_data →
                   find_text_bbox_in_page page_data title true = Some [] →
                   s' !! out = Some (ODict d))
        outs [d].
Proof.
  intros ocr_results d s.
  apply (enhance_toc_empty_bbox ocr_results s 1%nat [0%nat] [d]).
  - reflexivity.
  - repeat constructor.
Defined.

Lemma enhance_toc_keys_kept_witness :
  let ocr_results :=
    [Page.mk None
       (Some [LayoutItem.mk (Some "1 Introduction") (Some [10; 20; 300; 40])
                None])] in
  let d1 := TocEntry.mk (Some 1) (Some "Introduction") None None "1" in
  let d2 := TocEntry.mk (Some 1) (Some "Zebra Finance") None (Some 5) "2" in
  let s := [ODict d1; ODict d2; OList [0; 1]%nat] in
  ∃ enhanced_items s' outs,
    enhance_toc_with_bbox 2%nat ocr_results s = Done enhanced_items s'
    ∧ s !! enhanced_items = None
    ∧ s' !! enhanced_items = Some (OList outs)
    ∧ (∀ l o, s !! l = Some o → s' !! l = Some o)
    ∧ length outs = length [0; 1]%nat
    ∧ NoDup outs
    ∧ Forall2 (λ out d,
                 s !! out = None
                 ∧ out ≠ enhanced_items
                 ∧ (out ∉ [0; 1]%nat)
                 ∧ ∃ d', s' !! out = Some (ODict d')
                         ∧ TocEntry.physical_index d' = TocEntry.physical_index d
                         ∧ TocEntry.title d' = TocEntry.title d
                         ∧ TocEntry.rest d' = TocEntry.rest d
                         ∧ (d' = d ∨ is_Some (TocEntry.bbox d')
                                     ∧ is_Some (TocEntry.page_no d')))
        outs [d1; d2].
Proof.
  intros ocr_results d1 d2 s.
  apply (enhance_toc_keys_kept ocr_results s 2%nat [0; 1]%nat [d1; d2]).
  - reflexivity.
  - repeat constructor.
Defined.

Lemma enhance_toc_twice_witness :
  let ocr_results :=
    [Page.mk None
       (Some [LayoutItem.mk (Some "1 Introduction") (Some [10; 20; 300; 40])
                None])] in
  let d1 := TocEntry.mk (Some 1) (Some "Introduction") None None "1" in
  let d2 := TocEntry.mk (Some 1) (Some "Zebra Finance") None (Some 5) "2" in
  let s := [ODict d1; ODict d2; OList [0; 1]%nat] in
  ∃ first s1 outs1 second s2 outs2,
    enhance_toc_with_bbox 2%nat ocr_results s = Done first s1
    ∧ s1 !! first = Some (OList outs1)
    ∧ enhance_toc_with_bbox first ocr_results s1 = Done second s2
    ∧ s2 !! second = Some (OList outs2)
    ∧ Forall2 (λ out1 out2,
                 ∃ d', s2 !! out1 = Some (ODict d')
                       ∧ s2 !! out2 = Some (ODict d'))
        outs1 outs2.
Proof.
  intros ocr_results d1 d2 s.
  apply (enhance_toc_twice ocr_results s 2%nat [0; 1]%nat [d1; d2]).
  - reflexivity.
  - repeat constructor.
Defined.
